(** * basic_wget: the mirror package and the rate-limit parser

    A shallow embedding of the Go sources [main.go] (parseRateLimit,
    downloadFile and the way of [main] into the mirror) and of
    package [mirror] (types.go, mirror.go, parser.go, downloader.go,
    converter.go), together with the properties of the crawl stated in the
    specification.

    Go strings are byte strings: they are modelled by [string] (a list of
    8-bit [ascii]).  Signed 64-bit integers are modelled by [Z] with the
    wrap-around written out ([wrap64]). *)

From Stdlib Require Import ZArith Ascii String List Bool Lia.
From stdpp Require Import gmap strings.
Import ListNotations.

Local Open Scope string_scope.
Local Open Scope Z_scope.

(** ** Go's [strings] package (the functions the sources call) *)

Module gostrings.

(** [strings.HasPrefix(s, prefix)]:
    [len(s) >= len(prefix) && s[:len(prefix)] == prefix]. *)
Definition HasPrefix (s pre : string) : bool := String.prefix pre s.

(** [strings.HasSuffix(s, suffix)]:
    [len(s) >= len(suffix) && s[len(s)-len(suffix):] == suffix]. *)
Definition HasSuffix (s suffix : string) : bool :=
  (String.length suffix <=? String.length s)%nat
  && String.eqb
       (String.substring (String.length s - String.length suffix)
                         (String.length suffix) s)
       suffix.

(** The ASCII part of [unicode.ToLower]: 'A'..'Z' are moved to 'a'..'z'. *)
Definition lower_byte (c : ascii) : ascii :=
  let n := N_of_ascii c in
  if ((65 <=? n) && (n <=? 90))%N then ascii_of_N (n + 32) else c.

(** [c < utf8.RuneSelf] *)
Definition below_RuneSelf (c : ascii) : bool := (N_of_ascii c <? 128)%N.

(** The first loop of [strings.ToLower]: every byte of [s] is ASCII. *)
Definition isASCII (s : string) : bool :=
  forallb below_RuneSelf (list_ascii_of_string s).

(** The branch of [strings.ToLower] for a string that is all ASCII: every
    byte is lowered on its own. *)
Fixpoint lowerASCII (s : string) : string :=
  match s with
  | EmptyString => EmptyString
  | String c r => String (lower_byte c) (lowerASCII r)
  end.

(** [s[n:]], and the empty string when [s] has fewer than [n] bytes. *)
Fixpoint skip (n : nat) (s : string) : string :=
  match n, s with
  | O, _ => s
  | S n, String _ r => skip n r
  | S _, EmptyString => EmptyString
  end.

(** For any other string [strings.ToLower] is
    [strings.Map(unicode.ToLower, s)]: it ranges over the runes of [s] and
    writes [unicode.ToLower] of each, encoded in UTF-8 (U+FFFD for a byte
    that is not valid UTF-8).  The decoding, the case tables of package
    [unicode] and the encoding are behind this interface: for a string [s]
    that begins with a byte outside ASCII, [lowerRune s] is what [Map]
    writes for the first rune of [s], and the number of bytes of that rune
    after its first.  The properties of the program are proved for every
    implementation of the interface. *)
Class Lib := {
  lowerRune : string -> string * nat
}.

Section WithUnicode.
Context {L : Lib}.

(** The loop of [strings.Map(unicode.ToLower, s)], rune by rune.  A rune
    of ASCII is one byte, and [unicode.ToLower] lowers it as [lower_byte]
    does.  [fuel] bounds the number of runes; the length of [s] is
    enough. *)
Fixpoint mapLower (fuel : nat) (s : string) : string :=
  match fuel with
  | O => EmptyString
  | S fuel =>
      match s with
      | EmptyString => EmptyString
      | String c r =>
          if below_RuneSelf c
          then String (lower_byte c) (mapLower fuel r)
          else let '(out, more) := lowerRune s in
               out ++ mapLower fuel (skip more r)
      end
  end.

(** [strings.ToLower] *)
Definition ToLower (s : string) : string :=
  if isASCII s then lowerASCII s else mapLower (String.length s) s.

End WithUnicode.

(** An implementation for the examples, whose strings are all ASCII and
    never reach it: a byte outside ASCII is handed on as it is. *)
Definition bytewise : Lib :=
  {| lowerRune := fun s =>
       match s with
       | String c _ => (String c EmptyString, 0%nat)
       | EmptyString => (EmptyString, 0%nat)
       end |}.

End gostrings.

(** ** Go's [strconv.ParseInt(s, 10, 64)] *)

Module strconv.

Inductive NumError := ErrSyntax | ErrRange.

Definition maxUint64 : Z := 2 ^ 64 - 1.

(** The value of a decimal digit byte, ['0' <= c && c <= '9']. *)
Definition digit (c : ascii) : option Z :=
  let n := Z.of_N (N_of_ascii c) in
  if (48 <=? n) && (n <=? 57) then Some (n - 48) else None.

(** The loop of [ParseUint] for base 10 and bitSize 64, [n] the
    accumulator (a uint64).  Every byte that is not a decimal digit
    (letters are digits of a larger base, so [d >= base]) is a syntax
    error. *)
Fixpoint ParseUint_loop (s : string) (n : Z) : Z * option NumError :=
  match s with
  | EmptyString => (n, None)
  | String c r =>
      match digit c with
      | None => (0, Some ErrSyntax)
      | Some d =>
          let cutoff := maxUint64 / 10 + 1 in
          if n >=? cutoff then (maxUint64, Some ErrRange)
          else
            let n := (n * 10) mod 2 ^ 64 in
            let n1 := (n + d) mod 2 ^ 64 in
            if (n1 <? n) || (n1 >? maxUint64) then (maxUint64, Some ErrRange)
            else ParseUint_loop r n1
      end
  end.

Definition ParseUint (s : string) : Z * option NumError :=
  match s with
  | EmptyString => (0, Some ErrSyntax)
  | _ => ParseUint_loop s 0
  end.

(** [ParseInt(s, 10, 64)]: the value and the error, as Go returns them. *)
Definition ParseInt (s : string) : Z * option NumError :=
  match s with
  | EmptyString => (0, Some ErrSyntax)
  | String c r =>
      let '(neg, s') :=
        if Ascii.eqb c "+" then (false, r)
        else if Ascii.eqb c "-" then (true, r)
        else (false, s) in
      let '(un, err) := ParseUint s' in
      match err with
      | Some ErrSyntax => (0, Some ErrSyntax)
      | _ =>
          let cutoff := 2 ^ 63 in
          if negb neg && (un >=? cutoff) then (cutoff - 1, Some ErrRange)
          else if neg && (un >? cutoff) then (- cutoff, Some ErrRange)
          else (if neg then - un else un, None)
      end
  end.

End strconv.

(** ** Go's [path] and [path/filepath] packages (Unix separators) *)

Module gopath.

Definition slash : ascii := "/"%char.
Definition dot : ascii := "."%char.

(** The elements between the separators [sep], as [strings.Split] gives
    them: one more element than there are separators. *)
Fixpoint split (sep : ascii) (s : string) : list string :=
  match s with
  | EmptyString => [EmptyString]
  | String c r =>
      if Ascii.eqb c sep then EmptyString :: split sep r
      else match split sep r with
           | [] => [String c EmptyString]
           | e :: es => String c e :: es
           end
  end.

(** [strings.Join(elems, sep)] *)
Fixpoint join (sep : string) (elems : list string) : string :=
  match elems with
  | [] => EmptyString
  | [e] => e
  | e :: es => e ++ sep ++ join sep es
  end.

(** One step of the loop of [path.Clean], on path elements instead of
    bytes.  [out] is the output buffer as a stack of elements (last
    element first) and [dd] counts the [..] elements at its bottom, the
    part Go's [dotdot] index protects from backtracking. *)
Definition clean_step (rooted : bool) (st : list string * nat) (e : string)
  : list string * nat :=
  let '(out, dd) := st in
  if String.eqb e "" || String.eqb e "." then st
  else if String.eqb e ".." then
    if (dd <? List.length out)%nat then (tl out, dd)
    else if rooted then st
    else (".." :: out, S dd)
  else (e :: out, dd).

(** [path.Clean] *)
Definition Clean (p : string) : string :=
  if String.eqb p "" then "."
  else
    let rooted := gostrings.HasPrefix p "/" in
    let out := rev (fst (fold_left (clean_step rooted) (split slash p) ([], 0%nat))) in
    if rooted then "/" ++ join "/" out
    else match out with
         | [] => "."
         | _ => join "/" out
         end.

(** [path.Join]: empty elements are ignored, the rest is joined with
    slashes and cleaned; the result is empty when every element is. *)
Definition Join (elem : list string) : string :=
  match List.filter (fun e => negb (String.eqb e "")) elem with
  | [] => ""
  | es => Clean (join "/" es)
  end.

(** The backward scan of [path.Ext]: [rp] is what is left of the path,
    last byte first, [acc] the bytes already passed. *)
Fixpoint Ext_scan (rp acc : list ascii) : list ascii :=
  match rp with
  | [] => []
  | c :: r =>
      if Ascii.eqb c slash then []
      else if Ascii.eqb c dot then c :: acc
      else Ext_scan r (c :: acc)
  end.

(** [path.Ext]: the suffix beginning at the final dot of the final
    element of the path, empty if there is no dot. *)
Definition Ext (p : string) : string :=
  string_of_list_ascii (Ext_scan (rev (list_ascii_of_string p)) []).

Fixpoint strip_slashes (rp : list ascii) : list ascii :=
  match rp with
  | c :: r => if Ascii.eqb c slash then strip_slashes r else rp
  | [] => []
  end.

Fixpoint upto_slash (rp : list ascii) : list ascii :=
  match rp with
  | c :: r => if Ascii.eqb c slash then [] else c :: upto_slash r
  | [] => []
  end.

(** [path.Base]: the last element of the path, trailing slashes
    removed. *)
Definition Base (p : string) : string :=
  if String.eqb p "" then "."
  else
    let b := rev (upto_slash (strip_slashes (rev (list_ascii_of_string p)))) in
    match b with
    | [] => "/"
    | _ => string_of_list_ascii b
    end.

End gopath.

Module filepath.

(** What is left of a path, read from its end, from its last separator
    on. *)
Fixpoint from_slash (rp : list ascii) : list ascii :=
  match rp with
  | c :: r => if Ascii.eqb c gopath.slash then rp else from_slash r
  | [] => []
  end.

(** [filepath.Dir]: everything up to and including the last separator,
    cleaned. *)
Definition Dir (p : string) : string :=
  gopath.Clean
    (string_of_list_ascii (rev (from_slash (rev (list_ascii_of_string p))))).

Fixpoint join_from (elem : list string) : string :=
  match elem with
  | [] => ""
  | e :: es =>
      if String.eqb e "" then join_from es
      else gopath.Clean (gopath.join "/" elem)
  end.

(** [filepath.Join]: from the first non-empty element on, joined with
    the separator and cleaned. *)
Definition Join (elem : list string) : string := join_from elem.

(** [filepath.Base]: with Unix separators and no volume names, the
    function of package [path]. *)
Definition Base (p : string) : string := gopath.Base p.

End filepath.

(** ** Go's [net/url] package *)

Module neturl.

(** [url.URL].  The fields [User], [RawPath] and [RawFragment] are left
    out: the mirror never reads them. *)
Record URL := mkURL {
  Scheme : string;
  Opaque : string;
  Host : string;
  Path : string;
  OmitHost : bool;
  ForceQuery : bool;
  RawQuery : string;
  Fragment : string
}.

(** [func (u *URL) IsAbs() bool { return u.Scheme != "" }] *)
Definition IsAbs (u : URL) : bool := negb (String.eqb (Scheme u) "").

(** The entry points of the package that the mirror calls.  The
    properties of the mirror are proved for every implementation of this
    interface; [plain] below stands in for it in the examples.
    - [Parse rawURL] is [url.Parse], [None] when it returns an error;
    - [ResolveReference base ref] is [base.ResolveReference(ref)];
    - [ToString u] is [u.String()]. *)
Class Lib := {
  Parse : string -> option URL;
  ResolveReference : URL -> URL -> URL;
  ToString : URL -> string
}.

(** *** The package on plain URLs

    What follows is [net/url] for references written with letters,
    digits and the bytes [- . _ ~ / : ? # = & + , ;] only: no
    percent-escapes, no userinfo, no IPv6 literals.  Any other input is
    refused by [plain_Parse], where [url.Parse] may well accept it: [plain]
    is the package on plain URLs only, and is used for nothing but the
    examples, whose URLs are all plain. *)

Definition is_alpha (c : ascii) : bool :=
  let n := N_of_ascii c in
  (((65 <=? n) && (n <=? 90)) || ((97 <=? n) && (n <=? 122)))%N.

Definition is_digit (c : ascii) : bool :=
  let n := N_of_ascii c in ((48 <=? n) && (n <=? 57))%N.

Definition one_of (set : string) (c : ascii) : bool :=
  existsb (Ascii.eqb c) (list_ascii_of_string set).

Definition plain_byte (c : ascii) : bool :=
  is_alpha c || is_digit c || one_of "-._~/:?#=&+,;" c.

Definition all_bytes (P : ascii -> bool) (s : string) : bool :=
  forallb P (list_ascii_of_string s).

Definition contains (c : ascii) (s : string) : bool := one_of s c.

(** [strings.Cut(s, sep)] for a one-byte separator: the text before the
    first [sep] and, when there is one, the text after it. *)
Fixpoint cut (sep : ascii) (s : string) : string * option string :=
  match s with
  | EmptyString => (EmptyString, None)
  | String c r =>
      if Ascii.eqb c sep then (EmptyString, Some r)
      else let '(b, a) := cut sep r in (String c b, a)
  end.

(** The scan of [getScheme]: [None] is the error "missing protocol
    scheme", [Some None] is "no scheme", [Some (Some (s, rest))] a scheme
    and what follows its colon. *)
Fixpoint scheme_scan (first : bool) (s : string)
  : option (option (string * string)) :=
  match s with
  | EmptyString => Some None
  | String c r =>
      let continue :=
        match scheme_scan false r with
        | Some (Some (sch, rest)) => Some (Some (String c sch, rest))
        | other => other
        end in
      if is_alpha c then continue
      else if is_digit c || one_of "+-." c then
        if first then Some None else continue
      else if Ascii.eqb c ":" then
        if first then None else Some (Some (EmptyString, r))
      else Some None
  end.

Definition getScheme (rawURL : string) : option (string * string) :=
  match scheme_scan true rawURL with
  | None => None
  | Some None => Some ("", rawURL)
  | Some (Some p) => Some p
  end.

Definition count (c : ascii) (s : string) : nat :=
  List.length (List.filter (Ascii.eqb c) (list_ascii_of_string s)).

(** [validOptionalPort]: empty, or a colon followed by digits. *)
Definition validOptionalPort (port : string) : bool :=
  match port with
  | EmptyString => true
  | String c r => Ascii.eqb c ":" && all_bytes is_digit r
  end.

(** The backward scan for the last [c]: [rp] is what is left of the
    string, last byte first, [acc] the bytes already passed. *)
Fixpoint from_last_scan (c : ascii) (rp acc : list ascii)
  : option (list ascii) :=
  match rp with
  | [] => None
  | x :: r =>
      if Ascii.eqb x c then Some (x :: acc)
      else from_last_scan c r (x :: acc)
  end.

(** [s[i:]] for [i] the last index of [c] in [s], [None] without one. *)
Definition from_last (c : ascii) (s : string) : option string :=
  option_map string_of_list_ascii
    (from_last_scan c (rev (list_ascii_of_string s)) []).

(** [parseHost] on a plain authority: only the port is checked. *)
Definition parseHost (host : string) : option string :=
  match from_last ":" host with
  | Some colonPort => if validOptionalPort colonPort then Some host else None
  | None => Some host
  end.

(** [parse(rawURL, false)] *)
Definition parse (rawURL : string) : option URL :=
  match getScheme rawURL with
  | None => None
  | Some (scheme, rest) =>
      (* strings.ToLower(scheme): getScheme returns ASCII only *)
      let scheme := gostrings.lowerASCII scheme in
      let '(rest, forceQuery, rawQuery) :=
        if gostrings.HasSuffix rest "?" && (count "?" rest =? 1)%nat
        then (String.substring 0 (String.length rest - 1) rest, true, "")
        else let '(b, a) := cut "?" rest in (b, false, default "" a) in
      let rooted := gostrings.HasPrefix rest "/" in
      if negb rooted && negb (String.eqb scheme "") then
        Some (mkURL scheme rest "" "" false forceQuery rawQuery "")
      else if negb rooted && contains ":" (fst (cut "/" rest)) then None
      else if (negb (String.eqb scheme "") || negb (gostrings.HasPrefix rest "///"))
              && gostrings.HasPrefix rest "//" then
        let after := String.substring 2 (String.length rest - 2) rest in
        let '(authority, path) :=
          match cut "/" after with
          | (a, Some p) => (a, String gopath.slash p)
          | (a, None) => (a, "")
          end in
        match parseHost authority with
        | None => None
        | Some host =>
            Some (mkURL scheme "" host path false forceQuery rawQuery "")
        end
      else
        let omitHost := negb (String.eqb scheme "") && rooted in
        Some (mkURL scheme "" "" rest omitHost forceQuery rawQuery "")
  end.

(** [url.Parse]: the fragment is cut off at the first [#], the rest is
    parsed, the fragment is stored. *)
Definition plain_Parse (rawURL : string) : option URL :=
  if negb (all_bytes plain_byte rawURL) then None
  else
    let '(u, frag) := cut "#" rawURL in
    match parse u with
    | None => None
    | Some url =>
        Some (mkURL (Scheme url) (Opaque url) (Host url) (Path url)
                    (OmitHost url) (ForceQuery url) (RawQuery url)
                    (default "" frag))
    end.

(** [base[:strings.LastIndex(base, "/")+1]] *)
Definition dir_part (base : string) : string :=
  string_of_list_ascii
    (rev (filepath.from_slash (rev (list_ascii_of_string base)))).

(** [str[:strings.LastIndexByte(str, '/')]], [None] without a slash. *)
Definition before_last_slash (str : string) : option string :=
  match list_ascii_of_string (dir_part str) with
  | [] => None
  | l => Some (string_of_list_ascii (removelast l))
  end.

(** One round of the loop of [resolvePath]: [str] is [dst] without its
    leading slash. *)
Definition resolve_step (st : string * bool) (elem : string) : string * bool :=
  let '(str, first) := st in
  if String.eqb elem "." then (str, false)
  else if String.eqb elem ".." then
    match before_last_slash str with
    | None => ("", true)
    | Some s => (s, first)
    end
  else ((if first then str else str ++ "/") ++ elem, false).

(** [resolvePath(base, ref)] *)
Definition resolvePath (base ref : string) : string :=
  let full :=
    if String.eqb ref "" then base
    else if negb (gostrings.HasPrefix ref "/") then dir_part base ++ ref
    else ref in
  if String.eqb full "" then ""
  else
    let elems := gopath.split gopath.slash full in
    let '(str, _) := fold_left resolve_step elems ("", true) in
    let elem := List.last elems "" in
    let str := if String.eqb elem "." || String.eqb elem ".."
               then str ++ "/" else str in
    if gostrings.HasPrefix str "/" then str else "/" ++ str.

(** [u.ResolveReference(ref)] *)
Definition plain_ResolveReference (u ref : URL) : URL :=
  let scheme := if String.eqb (Scheme ref) "" then Scheme u else Scheme ref in
  if negb (String.eqb (Scheme ref) "") || negb (String.eqb (Host ref) "") then
    mkURL scheme (Opaque ref) (Host ref) (resolvePath (Path ref) "")
          (OmitHost ref) (ForceQuery ref) (RawQuery ref) (Fragment ref)
  else if negb (String.eqb (Opaque ref) "") then
    mkURL scheme (Opaque ref) "" ""
          (OmitHost ref) (ForceQuery ref) (RawQuery ref) (Fragment ref)
  else
    let inherit :=
      String.eqb (Path ref) "" && negb (ForceQuery ref)
      && String.eqb (RawQuery ref) "" in
    let rawQuery := if inherit then RawQuery u else RawQuery ref in
    let fragment :=
      if inherit && String.eqb (Fragment ref) "" then Fragment u
      else Fragment ref in
    if String.eqb (Path ref) "" && negb (String.eqb (Opaque u) "") then
      mkURL scheme (Opaque u) "" ""
            (OmitHost ref) (ForceQuery ref) rawQuery fragment
    else
      mkURL scheme (Opaque ref) (Host u) (resolvePath (Path u) (Path ref))
            (OmitHost ref) (ForceQuery ref) rawQuery fragment.

(** A [#] inside a fragment is written [%23] by [EscapedFragment]. *)
Fixpoint escape_hash (s : string) : string :=
  match s with
  | EmptyString => EmptyString
  | String c r =>
      if Ascii.eqb c "#" then "%23" ++ escape_hash r
      else String c (escape_hash r)
  end.

(** [u.String()] *)
Definition plain_String (u : URL) : string :=
  let scheme := if String.eqb (Scheme u) "" then "" else Scheme u ++ ":" in
  let body :=
    if negb (String.eqb (Opaque u) "") then Opaque u
    else
      let authority :=
        if negb (String.eqb (Scheme u) "") || negb (String.eqb (Host u) "") then
          if OmitHost u && String.eqb (Host u) "" then ""
          else
            (if negb (String.eqb (Host u) "") || negb (String.eqb (Path u) "")
             then "//" else "") ++ Host u
        else "" in
      let sep :=
        if negb (String.eqb (Path u) "") && negb (gostrings.HasPrefix (Path u) "/")
           && negb (String.eqb (Host u) "")
        then "/" else "" in
      let dotslash :=
        if String.eqb (scheme ++ authority ++ sep) ""
           && contains ":" (fst (cut "/" (Path u)))
        then "./" else "" in
      authority ++ sep ++ dotslash ++ Path u in
  let query :=
    if ForceQuery u || negb (String.eqb (RawQuery u) "")
    then "?" ++ RawQuery u else "" in
  let fragment :=
    if String.eqb (Fragment u) "" then ""
    else "#" ++ escape_hash (Fragment u) in
  scheme ++ body ++ query ++ fragment.

Definition plain : Lib := {|
  Parse := plain_Parse;
  ResolveReference := plain_ResolveReference;
  ToString := plain_String
|}.

End neturl.

(** ** Package main: parseRateLimit *)

Module main.

(** An int64 result: the integer congruent to [z] modulo 2^64 that lies in
    [-2^63, 2^63). *)
Definition wrap64 (z : Z) : Z := (z + 2 ^ 63) mod 2 ^ 64 - 2 ^ 63.

(** [s[:len(s)-1]] *)
Definition dropLast (s : string) : string :=
  String.substring 0 (String.length s - 1) s.

(** [parseRateLimit]: the pair (value, error) the Go function returns;
    [None] is [nil]. *)
Definition parseRateLimit {L : gostrings.Lib} (rateLimit : string)
  : Z * option strconv.NumError :=
  if String.eqb rateLimit "" then (0, None)
  else
    let rateLimit := gostrings.ToLower rateLimit in
    let '(multiplier, rateLimit) :=
      if gostrings.HasSuffix rateLimit "k" then (1024, dropLast rateLimit)
      else if gostrings.HasSuffix rateLimit "m"
           then (1024 * 1024, dropLast rateLimit)
           else (1, rateLimit) in
    let '(rate, err) := strconv.ParseInt rateLimit in
    match err with
    | Some e => (0, Some e)
    | None => (wrap64 (rate * multiplier), None)
    end.

End main.

(** ** [golang.org/x/net/html]: document trees *)

Module html.

Inductive NodeType :=
| ErrorNode | TextNode | DocumentNode | ElementNode
| CommentNode | DoctypeNode | RawNode.

Record Attribute := mkAttr {
  Namespace : string;
  Key : string;
  Val : string
}.

(** [html.Node]: the chain [FirstChild], [NextSibling], ... of the Go
    structure is the list of children. *)
#[warnings="-register-all"]
Inductive Node :=
| mkNode (Type_ : NodeType) (Data : string) (Attr : list Attribute)
         (Children : list Node).

(** [html.Parse] of the bytes of a file ([None] for an error) and
    [html.Render] of a tree.  They are taken as given. *)
Class Lib := {
  Parse : string -> option Node;
  Render : Node -> option string
}.

End html.

(** ** Package mirror *)

Module mirror.

(** *** types.go *)

Module Config.
Record t := mk {
  URL : string;
  RejectTypes : list string;
  ExcludePaths : list string;
  ConvertLinks : bool;
  OutputDir : string
}.
End Config.

Module Resource.
Record t := mk {
  URL : string;
  LocalPath : string;
  ContentType : string;
  IsHTML : bool
}.
End Resource.

(** [Queue].  [Resources] is the buffer of the channel, oldest element
    first, with [closed] telling whether the channel was closed;
    [Processed] is the map.  [ProcessLock] has no counterpart: the queue is
    only ever touched by one goroutine at a time. *)
Record Queue := mkQueue {
  Resources : list Resource.t;
  closed : bool;
  Processed : gmap string bool
}.

(** [make(chan Resource, 1000)] *)
Definition capacity : nat := 1000.

Definition NewQueue : Queue := mkQueue [] false ∅.

(** [q.Processed[k]]: a missing key reads as [false]. *)
Definition isProcessed (q : Queue) (k : string) : bool :=
  default false (Processed q !! k).

(** [q.Processed[k] = true] *)
Definition setProcessed (k : string) (q : Queue) : Queue :=
  mkQueue (Resources q) (closed q) (<[k := true]> (Processed q)).

(** What a piece of code that sends on the channel does: it goes on with
    a new queue, parks for ever on a full buffer (its own goroutine is the
    only receiver), or panics on a closed channel. *)
Inductive Sent :=
| Next (q : Queue)
| SendBlocks (q : Queue)
| SendPanics.

(** [q.Resources <- r] *)
Definition send (r : Resource.t) (q : Queue) : Sent :=
  if closed q then SendPanics
  else if (List.length (Resources q) <? capacity)%nat
       then Next (mkQueue (Resources q ++ [r]) (closed q) (Processed q))
       else SendBlocks q.

Inductive Received :=
| Item (r : Resource.t) (q : Queue)
| RecvClosed
| RecvBlocks.

(** One receive of [for resource := range q.Resources]. *)
Definition recv (q : Queue) : Received :=
  match Resources q with
  | r :: rest => Item r (mkQueue rest (closed q) (Processed q))
  | [] => if closed q then RecvClosed else RecvBlocks
  end.

(** The attribute that carries the link of an element: [href] for [a]
    and [link], [src] for [img] and [script], empty otherwise (the
    [switch n.Data] of parser.go and converter.go). *)
Definition linkAttr (data : string) : string :=
  if String.eqb data "a" || String.eqb data "link" then "href"
  else if String.eqb data "img" || String.eqb data "script" then "src"
  else "".

(** *** parser.go *)

Module Parser.

Record t := mk {
  baseURL : neturl.URL;
  config : Config.t
}.

Section WithLibraries.
Context {U : neturl.Lib} {L : gostrings.Lib}.

Definition NewParser (baseURL : string) (config : Config.t) : option t :=
  match neturl.Parse baseURL with
  | None => None
  | Some parsedURL => Some (mk parsedURL config)
  end.

(** [ext[1:]] *)
Definition removeDot (ext : string) : string :=
  String.substring 1 (String.length ext - 1) ext.

(** [processURL] handles a discovered URL. *)
Definition processURL (p : t) (rawURL : string) (q : Queue) : Sent :=
  (* Skip empty URLs and anchors *)
  if String.eqb rawURL "" || gostrings.HasPrefix rawURL "#" then Next q
  else
    match neturl.Parse rawURL with
    | None => Next q
    | Some u =>
        (* Make absolute URL if relative *)
        let u := if negb (neturl.IsAbs u)
                 then neturl.ResolveReference (baseURL p) u else u in
        (* Skip if different host *)
        if negb (String.eqb (neturl.Host u) (neturl.Host (baseURL p)))
        then Next q
        (* Check excluded paths *)
        else if existsb (fun exclude =>
                           gostrings.HasPrefix (neturl.Path u) exclude)
                        (Config.ExcludePaths (config p))
        then Next q
        else
          (* Check rejected file types *)
          let ext := gostrings.ToLower (gopath.Ext (neturl.Path u)) in
          let rejected :=
            negb (String.eqb ext "")
            && existsb (fun reject => String.eqb (removeDot ext) reject)
                       (Config.RejectTypes (config p)) in
          let ext := if negb (String.eqb ext "") then removeDot ext else ext in
          if rejected then Next q
          (* Add to queue if not processed *)
          else if negb (isProcessed q (neturl.ToString u)) then
            if negb (isProcessed q (neturl.ToString u)) then
              send (Resource.mk
                      (neturl.ToString u)
                      (gopath.Join [Config.OutputDir (config p);
                                    neturl.Host u; neturl.Path u])
                      ""
                      (String.eqb ext "html" || String.eqb ext "htm"))
                   (setProcessed (neturl.ToString u) q)
            else Next q
          else Next q
    end.

(** The closure [f] of [Parse]: at an element whose tag has a link
    attribute, the first attribute with that key is processed; then
    the children are walked in order. *)
Fixpoint walk (p : t) (n : html.Node) (q : Queue) : Sent :=
  match n with
  | html.mkNode ty data attrs children =>
      let visited :=
        match ty with
        | html.ElementNode =>
            let attr := linkAttr data in
            if negb (String.eqb attr "") then
              match List.find (fun a => String.eqb (html.Key a) attr) attrs with
              | Some a => processURL p (html.Val a) q
              | None => Next q
              end
            else Next q
        | _ => Next q
        end in
      match visited with
      | Next q =>
          (fix siblings (cs : list html.Node) (q : Queue) : Sent :=
             match cs with
             | [] => Next q
             | c :: cs =>
                 match walk p c q with
                 | Next q => siblings cs q
                 | stuck => stuck
                 end
             end) children q
      | stuck => stuck
      end
  end.

(** [Parse] processes an HTML document and extracts links.  The
    second component is [false] when [html.Parse] returns an error. *)
Definition Parse {H : html.Lib} (p : t) (content : string) (q : Queue)
  : Sent * bool :=
  match html.Parse content with
  | None => (Next q, false)
  | Some doc => (walk p doc q, true)
  end.

End WithLibraries.

End Parser.

(** *** The file system and the network

    The files of the mirror are a finite map from paths to contents.  A
    [World] says how the calls that leave the program answer: whether
    [os.MkdirAll] succeeds on a directory, whether a path can be opened
    for writing ([os.Create], [os.WriteFile]), what [http.Client.Get]
    returns for a URL ([None]: a transport error), after how many
    bytes [io.Copy] of a response into a file breaks off ([None]: it
    copies the whole body), and with how many bytes written the write and
    close of [os.WriteFile] fail ([None]: they succeed, the whole buffer
    is written). *)

Abbreviation FS := (gmap string string).

Record Response := mkResponse {
  StatusCode : Z;
  Body : string
}.

Record World := mkWorld {
  MkdirAll : FS -> string -> bool;
  Create : FS -> string -> bool;
  Get : string -> option Response;
  CopyStops : string -> Response -> option nat;
  WriteStops : string -> string -> option nat
}.

(** *** downloader.go *)

Module Downloader.

Inductive error :=
| MkdirError
| GetError
| StatusError (code : Z)
| CreateError
| CopyError.

(** [http.StatusOK] *)
Definition StatusOK : Z := 200.

(** [downloadResource] downloads a single resource: the files after
    the call and the error returned ([None] is [nil]). *)
Definition downloadResource (w : World) (resource : Resource.t) (fs : FS)
  : FS * option error :=
  (* Create directory if it doesn't exist *)
  let dir := filepath.Dir (Resource.LocalPath resource) in
  if negb (MkdirAll w fs dir) then (fs, Some MkdirError)
  else
    (* Download the file *)
    match Get w (Resource.URL resource) with
    | None => (fs, Some GetError)
    | Some resp =>
        if negb (StatusCode resp =? StatusOK)
        then (fs, Some (StatusError (StatusCode resp)))
        (* Create the file *)
        else if negb (Create w fs (Resource.LocalPath resource))
        then (fs, Some CreateError)
        else
          (* Copy the content *)
          match CopyStops w (Resource.LocalPath resource) resp with
          | Some n =>
              (<[Resource.LocalPath resource :=
                   String.substring 0 n (Body resp)]> fs,
               Some CopyError)
          | None =>
              (<[Resource.LocalPath resource := Body resp]> fs, None)
          end
    end.

End Downloader.

(** *** converter.go *)

Module Converter.

Record t := mk {
  baseURL : neturl.URL;
  config : Config.t
}.

Section WithLibraries.
Context {U : neturl.Lib}.

Definition NewConverter (baseURL : string) (config : Config.t) : option t :=
  match neturl.Parse baseURL with
  | None => None
  | Some parsedURL => Some (mk parsedURL config)
  end.

(** [convertPath] converts a URL to a relative path for offline
    viewing; the empty string means "leave the attribute alone". *)
Definition convertPath (c : t) (rawURL basePath : string) : string :=
  (* Skip empty URLs, anchors, and absolute URLs to other domains *)
  if String.eqb rawURL "" || gostrings.HasPrefix rawURL "#" then ""
  else
    match neturl.Parse rawURL with
    | None => ""
    | Some u =>
        (* Handle absolute URLs *)
        if neturl.IsAbs u then
          if negb (String.eqb (neturl.Host u) (neturl.Host (baseURL c)))
          then ""
          else filepath.Join [Config.OutputDir (config c);
                              neturl.Host u; neturl.Path u]
        (* Handle relative URLs *)
        else filepath.Join [basePath; neturl.Path u]
    end.

(** The loop over [n.Attr]: every attribute with the key [attr] whose
    value converts to a non-empty path gets that path as its value. *)
Definition convertAttr (c : t) (attr basePath : string) (a : html.Attribute)
  : html.Attribute :=
  if String.eqb (html.Key a) attr then
    let newPath := convertPath c (html.Val a) basePath in
    if negb (String.eqb newPath "")
    then html.mkAttr (html.Namespace a) (html.Key a) newPath
    else a
  else a.

(** [convertNode] recursively processes HTML nodes and converts
    links. *)
Fixpoint convertNode (c : t) (n : html.Node) (basePath : string) : html.Node :=
  match n with
  | html.mkNode ty data attrs children =>
      let attrs :=
        match ty with
        | html.ElementNode =>
            let attr := linkAttr data in
            if negb (String.eqb attr "")
            then map (convertAttr c attr basePath) attrs
            else attrs
        | _ => attrs
        end in
      html.mkNode ty data attrs
                  (map (fun child => convertNode c child basePath) children)
  end.

Inductive error := ReadError | ParseError | RenderError | WriteError.

(** [ConvertLinks] converts links in HTML files for offline viewing.
    [os.WriteFile] opens the file with [O_TRUNC], writes the buffer and
    closes the file: when the open fails nothing has changed; when the
    write or the close fails the file holds what was written of the
    buffer, and the error is returned. *)
Definition ConvertLinks {H : html.Lib} (w : World) (c : t)
           (filePath : string) (fs : FS) : FS * option error :=
  match fs !! filePath with
  | None => (fs, Some ReadError)
  | Some content =>
      match html.Parse content with
      | None => (fs, Some ParseError)
      | Some doc =>
          let doc := convertNode c doc (filepath.Dir filePath) in
          match html.Render doc with
          | None => (fs, Some RenderError)
          | Some buf =>
              if negb (Create w fs filePath) then (fs, Some WriteError)
              else
                match WriteStops w filePath buf with
                | Some n =>
                    (<[filePath := String.substring 0 n buf]> fs,
                     Some WriteError)
                | None => (<[filePath := buf]> fs, None)
                end
          end
      end
  end.

End WithLibraries.

End Converter.

(** *** mirror.go *)

Module Mirror.

Record t := mk {
  config : Config.t;
  parser : Parser.t;
  converter : Converter.t
}.

(** How a call of [Start] goes on:
    - [Returned]: the range loop ended, the deferred calls ran,
      [wg.Wait()] came back and [Start] returned [nil];
    - [ReceiveBlocks]: the goroutine is parked in the receive of the
      range loop on the empty, open channel, and [Start] in
      [wg.Wait()];
    - [SendBlocked]: a send on the full channel is parked;
    - [Panics]: a send on, or a close of, a closed channel;
    - [Running]: the given number of loop rounds is used up. *)
Inductive Outcome :=
| Returned (q : Queue) (fs : FS)
| ReceiveBlocks (q : Queue) (fs : FS)
| SendBlocked (q : Queue) (fs : FS)
| Panics
| Running (q : Queue) (fs : FS).

Inductive urlError := InvalidURL | BadURL | BadBase.

(** [close(q.Resources)]: closing a closed channel panics ([None]). *)
Definition close (q : Queue) : option Queue :=
  if closed q then None
  else Some (mkQueue (Resources q) true (Processed q)).

Section WithLibraries.
Context {U : neturl.Lib} {L : gostrings.Lib} {H : html.Lib}.

(** [New] creates a new Mirror instance, and its queue.  The default
    of [OutputDir] is written into the shared [Config]. *)
Definition New (config : Config.t) : option (t * Queue) :=
  match neturl.Parse (Config.URL config) with
  | None => None
  | Some baseURL =>
      let config :=
        if String.eqb (Config.OutputDir config) ""
        then Config.mk (Config.URL config) (Config.RejectTypes config)
                       (Config.ExcludePaths config)
                       (Config.ConvertLinks config) (neturl.Host baseURL)
        else config in
      let queue := NewQueue in
      match Parser.NewParser (Config.URL config) config with
      | None => None
      | Some parser =>
          match Converter.NewConverter (Config.URL config) config with
          | None => None
          | Some converter => Some (mk config parser converter, queue)
          end
      end
  end.

(** [processURL] normalizes and validates a URL: the URL, or the error
    ([InvalidURL] for an empty value or an anchor, [BadURL] when the value
    does not parse, [BadBase] when the URL of the configuration does
    not). *)
Definition processURL (m : t) (rawURL : string) : neturl.URL + urlError :=
  if String.eqb rawURL "" || gostrings.HasPrefix rawURL "#" then inr InvalidURL
  else
    match neturl.Parse rawURL with
    | None => inr BadURL
    | Some u =>
        match neturl.Parse (Config.URL (config m)) with
        | None => inr BadBase
        | Some baseURL =>
            inl (if negb (neturl.IsAbs u)
                 then neturl.ResolveReference baseURL u else u)
        end
    end.

(** The resource [Start] puts on the queue first. *)
Definition initialResource (m : t) : Resource.t :=
  Resource.mk (Config.URL (config m))
              (gopath.Join [Config.OutputDir (config m);
                            gopath.Base (Config.URL (config m))])
              ""
              true.

(** The body of the range loop for one resource. *)
Definition process (m : t) (w : World) (resource : Resource.t)
           (q : Queue) (fs : FS) : Sent * FS :=
  (* Download the resource *)
  match Downloader.downloadResource w resource fs with
  | (fs, Some _) => (Next q, fs)
  | (fs, None) =>
      (* If it's HTML, parse it for more links *)
      if Resource.IsHTML resource then
        match fs !! Resource.LocalPath resource with
        | None => (Next q, fs)
        | Some content =>
            match fst (Parser.Parse (parser m) content q) with
            | Next q =>
                (* Convert links if needed *)
                if Config.ConvertLinks (config m)
                then (Next q,
                      fst (Converter.ConvertLinks
                             w (converter m)
                             (Resource.LocalPath resource) fs))
                else (Next q, fs)
            | stuck => (stuck, fs)
            end
        end
      else (Next q, fs)
  end.

(** The goroutine of [Start]: [for resource := range m.queue.Resources],
    then the deferred [close(m.queue.Resources)] and [wg.Done()]. *)
Fixpoint loop (rounds : nat) (m : t) (w : World) (q : Queue) (fs : FS)
  : Outcome :=
  match rounds with
  | O => Running q fs
  | S rounds =>
      match recv q with
      | RecvBlocks => ReceiveBlocks q fs
      | RecvClosed =>
          match close q with
          | Some q => Returned q fs
          | None => Panics
          end
      | Item resource q =>
          match process m w resource q fs with
          | (Next q, fs) => loop rounds m w q fs
          | (SendBlocks q, fs) => SendBlocked q fs
          | (SendPanics, _) => Panics
          end
      end
  end.

(** [Start] begins the mirroring process. *)
Definition Start (rounds : nat) (m : t) (w : World) (q : Queue) (fs : FS)
  : Outcome :=
  (* Add to queue *)
  match send (initialResource m) q with
  | Next q =>
      let q := setProcessed (Config.URL (config m)) q in
      (* Process queue; wait for completion *)
      loop rounds m w q fs
  | SendBlocks q => SendBlocked q fs
  | SendPanics => Panics
  end.

End WithLibraries.

End Mirror.

End mirror.

(** ** Package main: the downloads and the way into the mirror *)

Module wget.

(** [Config] of package main: the flags of the command line. *)
Record Config := mkConfig {
  outputFile : string;
  outputDir : string;
  background : bool;
  rateLimit : string;
  rateBytes : Z;
  inputFile : string;
  mirror : bool;
  reject : string;
  exclude : string;
  convertLinks : bool
}.

Inductive error :=
| GetError
| BadStatus (code : Z)
| MkdirError
| CreateError
| CopyError.

(** The name [downloadFile] saves under: [-O], or else the last element
    of the URL; inside [-P] when that is given. *)
Definition fileName (url : string) (config : Config) : string :=
  let fileName :=
    if String.eqb (outputFile config) "" then filepath.Base url
    else outputFile config in
  if negb (String.eqb (outputDir config) "")
  then filepath.Join [outputDir config; fileName]
  else fileName.

(** [downloadFile]: the files after the call and the error returned.
    What it prints is left out; the progress writer and the rate limiter
    hand every byte on, so the copy is the copy of the body. *)
Definition downloadFile (w : mirror.World) (url : string) (config : Config)
           (fs : mirror.FS) : mirror.FS * option error :=
  match mirror.Get w url with
  | None => (fs, Some GetError)
  | Some resp =>
      if negb (mirror.StatusCode resp =? 200)
      then (fs, Some (BadStatus (mirror.StatusCode resp)))
      else if negb (String.eqb (outputDir config) "")
              && negb (mirror.MkdirAll w fs (outputDir config))
      then (fs, Some MkdirError)
      else if negb (mirror.Create w fs (fileName url config))
      then (fs, Some CreateError)
      else
        match mirror.CopyStops w (fileName url config) resp with
        | Some n =>
            (<[fileName url config :=
                 String.substring 0 n (mirror.Body resp)]> fs,
             Some CopyError)
        | None =>
            (<[fileName url config := mirror.Body resp]> fs, None)
        end
  end.

(** The list a comma-separated flag stands for in [main]: empty for the
    empty flag, [strings.Split(flag, ",")] otherwise. *)
Definition splitFlag (flag : string) : list string :=
  if negb (String.eqb flag "") then gopath.split "," flag else [].

(** The [mirror.Config] that [main] builds from the flags and the first
    argument. *)
Definition mirrorConfig (url : string) (config : Config) : mirror.Config.t :=
  mirror.Config.mk url (splitFlag (reject config)) (splitFlag (exclude config))
                   (convertLinks config) (outputDir config).

End wget.

Import mirror.

(** * The specification, restated on the model *)

(** ** Rates *)

(** The value of a string of decimal digits read after the value [acc];
    [None] when a byte is not a digit. *)
Fixpoint digits_value (s : string) (acc : Z) : option Z :=
  match s with
  | EmptyString => Some acc
  | String c r =>
      match strconv.digit c with
      | Some d => digits_value r (acc * 10 + d)
      | None => None
      end
  end.

(** A decimal integer is an optional sign followed by one digit or more;
    [decimal_value] is the integer it denotes, of any size. *)
Definition decimal_value (s : string) : option Z :=
  match s with
  | EmptyString => None
  | String c r =>
      if Ascii.eqb c "+" then
        (if String.eqb r "" then None else digits_value r 0)
      else if Ascii.eqb c "-" then
        (if String.eqb r "" then None else option_map Z.opp (digits_value r 0))
      else digits_value s 0
  end.

(** [trailing c s] is [Some p] when [s] is [p] followed by the byte [c]. *)
Fixpoint trailing (c : ascii) (s : string) : option string :=
  match s with
  | EmptyString => None
  | String x r =>
      match r with
      | EmptyString => if Ascii.eqb x c then Some EmptyString else None
      | _ => option_map (String x) (trailing c r)
      end
  end.

(** The rate a rate-limit string stands for: nothing to limit for the
    empty string; otherwise the lower-cased string, less a trailing [k] or
    [m], must be a decimal integer of the int64 range, and the rate is that
    integer times 1024 or 1048576, as an int64.  [None] where
    [parseRateLimit] is to return an error. *)
Definition rate_spec {L : gostrings.Lib} (s : string) : option Z :=
  if String.eqb s "" then Some 0
  else
    let l := gostrings.ToLower s in
    let '(m, p) :=
      match trailing "k" l with
      | Some p => (1024, p)
      | None => match trailing "m" l with
                | Some p => (1024 * 1024, p)
                | None => (1, l)
                end
      end in
    match decimal_value p with
    | Some v =>
        if (- 2 ^ 63 <=? v) && (v <? 2 ^ 63) then Some (main.wrap64 (v * m))
        else None
    | None => None
    end.

(** ** Candidates, filters and the queue *)

Section CrawlDefinitions.
Context {U : neturl.Lib} {L : gostrings.Lib}.

(** The URL that [processURL] works on for a raw attribute value: the
    parsed value, resolved against the base URL when it has no scheme.
    [None] for the values [processURL] drops at once. *)
Definition resolved (p : Parser.t) (rawURL : string) : option neturl.URL :=
  if String.eqb rawURL "" || gostrings.HasPrefix rawURL "#" then None
  else
    match neturl.Parse rawURL with
    | None => None
    | Some u =>
        Some (if negb (neturl.IsAbs u)
              then neturl.ResolveReference (Parser.baseURL p) u else u)
    end.


Definition sameHost (p : Parser.t) (u : neturl.URL) : bool :=
  String.eqb (neturl.Host u) (neturl.Host (Parser.baseURL p)).

Definition excluded (p : Parser.t) (u : neturl.URL) : bool :=
  existsb (fun exclude => gostrings.HasPrefix (neturl.Path u) exclude)
          (Config.ExcludePaths (Parser.config p)).

(** The extension of the path of a URL, dot included, in lower case. *)
Definition lowerExt (u : neturl.URL) : string :=
  gostrings.ToLower (gopath.Ext (neturl.Path u)).

Definition rejected (p : Parser.t) (u : neturl.URL) : bool :=
  negb (String.eqb (lowerExt u) "")
  && existsb (String.eqb (Parser.removeDot (lowerExt u)))
             (Config.RejectTypes (Parser.config p)).

(** The three filters of [processURL] together. *)
Definition passesFilters (p : Parser.t) (u : neturl.URL) : bool :=
  sameHost p u && negb (excluded p u) && negb (rejected p u).

(** The resource [processURL] pushes for a URL. *)
Definition resourceOf (p : Parser.t) (u : neturl.URL) : Resource.t :=
  Resource.mk (neturl.ToString u)
              (gopath.Join [Config.OutputDir (Parser.config p);
                            neturl.Host u; neturl.Path u])
              ""
              (let ext := if negb (String.eqb (lowerExt u) "")
                          then Parser.removeDot (lowerExt u) else lowerExt u in
               String.eqb ext "html" || String.eqb ext "htm").

(** The calls of [processURL] for a list of raw values, one after the
    other, as the walk of [Parse] makes them. *)
Fixpoint processURLs (p : Parser.t) (raws : list string) (q : Queue) : Sent :=
  match raws with
  | [] => Next q
  | rawURL :: raws =>
      match Parser.processURL p rawURL q with
      | Next q => processURLs p raws q
      | stuck => stuck
      end
  end.

(** A path whose extension, in lower case, is [.html] or [.htm]. *)
Definition isHTMLPath (path : string) : bool :=
  let e := gostrings.ToLower (gopath.Ext path) in
  String.eqb e ".html" || String.eqb e ".htm".

(** ** Link attributes *)

(** The values of the link attributes of a document, in document order:
    every [href] of an [a] or [link] element and every [src] of an [img]
    or [script] element. *)
Fixpoint linkValues (n : html.Node) : list string :=
  match n with
  | html.mkNode ty data attrs children =>
      (match ty with
       | html.ElementNode =>
           if negb (String.eqb (linkAttr data) "")
           then map html.Val
                    (List.filter (fun a => String.eqb (html.Key a) (linkAttr data))
                                 attrs)
           else []
       | _ => []
       end ++ flat_map linkValues children)%list
  end.




End CrawlDefinitions.

(** ** The states of a crawl *)

(** The resources on the channel after a piece of code that sends. *)
Definition queued (s : Sent) : list Resource.t :=
  match s with
  | Next q | SendBlocks q => Resources q
  | SendPanics => []
  end.

(** On an open channel nothing panics and the channel stays open. *)
Definition keepsOpen (s : Sent) : Prop :=
  match s with
  | Next q | SendBlocks q => closed q = false
  | SendPanics => False
  end.

(** [Start] has returned. *)
Definition hasReturned (o : Mirror.Outcome) : bool :=
  match o with
  | Mirror.Returned _ _ => true
  | _ => false
  end.

(** The goroutine of [Start] is parked for ever, or still at work. *)
Definition parkedOrRunning (o : Mirror.Outcome) : Prop :=
  match o with
  | Mirror.ReceiveBlocks _ _ | Mirror.SendBlocked _ _ | Mirror.Running _ _ => True
  | Mirror.Returned _ _ | Mirror.Panics => False
  end.

(** ** A small site

    The site of the end-to-end scenario of the specification, with plain
    URLs: [index.html] links to [a.html], [style.css] and [img.jpg] of its
    own host and to a page of [other.test]; [a.html] links back to
    [index.html#top].  Documents are written out by a minimal serializer
    and parsed back by looking the text up among the pages of the site. *)

Module site.

Definition element (tag : string) (attrs : list (string * string))
           (children : list html.Node) : html.Node :=
  html.mkNode html.ElementNode tag
              (map (fun kv => html.mkAttr "" (fst kv) (snd kv)) attrs)
              children.

Definition document (children : list html.Node) : html.Node :=
  html.mkNode html.DocumentNode "" [] children.

Fixpoint render (n : html.Node) : string :=
  match n with
  | html.mkNode ty data attrs children =>
      let inner := String.concat "" (map render children) in
      match ty with
      | html.ElementNode =>
          "<" ++ data
          ++ String.concat ""
               (map (fun a => " " ++ html.Key a ++ "=" ++ html.Val a) attrs)
          ++ ">" ++ inner ++ "</" ++ data ++ ">"
      | html.TextNode => data
      | _ => inner
      end
  end.

Definition parseAmong (pages : list html.Node) (content : string)
  : option html.Node :=
  match List.find (fun d => String.eqb (render d) content) pages with
  | Some d => Some d
  | None => Some (document [])
  end.

Definition lib (pages : list html.Node) : html.Lib :=
  {| html.Parse := parseAmong pages;
     html.Render := fun n => Some (render n) |}.

Definition index : html.Node :=
  document
    [element "html" []
       [element "head" []
          [element "link" [("rel", "stylesheet");
                           ("href", "http://example.test/style.css")] []];
        element "body" []
          [element "a" [("href", "http://example.test/a.html")] [];
           element "a" [("href", "http://other.test/x.html")] [];
           element "img" [("src", "http://example.test/img.jpg")] []]]].

Definition a_html : html.Node :=
  document
    [element "html" []
       [element "body" []
          [element "a" [("href", "index.html#top")] []]]].

Definition pages : list html.Node := [index; a_html].

Definition served : list (string * string) :=
  [("http://example.test/index.html", render index);
   ("http://example.test/a.html", render a_html);
   ("http://example.test/style.css", "body{}")].

(** The server answers 200 with the page for the URLs it serves (the
    fragment is not part of a request) and 404 for the rest. *)
Definition get (url : string) : option Response :=
  let request := fst (neturl.cut "#" url) in
  match List.find (fun e => String.eqb (fst e) request) served with
  | Some e => Some (mkResponse 200 (snd e))
  | None => Some (mkResponse 404 "")
  end.

(** Directories and files can always be created, copies run through. *)
Definition world : World :=
  mkWorld (fun _ _ => true) (fun _ _ => true) get (fun _ _ => None)
          (fun _ _ => None).

(** The same, with a server that answers 204 No Content to everything. *)
Definition world204 : World :=
  mkWorld (fun _ _ => true) (fun _ _ => true)
          (fun _ => Some (mkResponse 204 "")) (fun _ _ => None)
          (fun _ _ => None).

(** The same as [world], with every copy breaking off after six bytes. *)
Definition worldBroken : World :=
  mkWorld (fun _ _ => true) (fun _ _ => true) get (fun _ _ => Some 6%nat)
          (fun _ _ => None).

(** The same as [world], with every write of [os.WriteFile] failing after
    six bytes. *)
Definition worldFull : World :=
  mkWorld (fun _ _ => true) (fun _ _ => true) get (fun _ _ => None)
          (fun _ _ => Some 6%nat).

Definition cfg : Config.t :=
  Config.mk "http://example.test/index.html" ["jpg"] [] true "out".

Definition base : neturl.URL :=
  neturl.mkURL "http" "" "example.test" "/index.html" false false "" "".

Definition p : Parser.t := Parser.mk base cfg.
Definition c : Converter.t := Converter.mk base cfg.
Definition m : Mirror.t := Mirror.mk cfg p c.

(** A second run into the same output directory, seeded at [a.html]. *)
Definition cfg2 : Config.t :=
  Config.mk "http://example.test/a.html" ["jpg"] [] true "out".

Definition p2 : Parser.t :=
  Parser.mk (neturl.mkURL "http" "" "example.test" "/a.html" false false "" "")
            cfg2.

(** The first run with [-R=JPG] in place of [-R=jpg]. *)
Definition pJPG : Parser.t :=
  Parser.mk base
            (Config.mk "http://example.test/index.html" ["JPG"] [] true "out").

(** The queue after [/a.html] was processed on a fresh queue, and after
    [style.css] was processed next. *)
Definition q1 : Queue :=
  mkQueue [Resource.mk "http://example.test/a.html" "out/example.test/a.html"
                       "" true]
          false
          {["http://example.test/a.html" := true]}.

Definition q2 : Queue :=
  mkQueue [Resource.mk "http://example.test/a.html" "out/example.test/a.html"
                       "" true;
           Resource.mk "http://example.test/style.css"
                       "out/example.test/style.css" "" false]
          false
          (<["http://example.test/style.css" := true]>
             {["http://example.test/a.html" := true]}).

End site.

(** ** More of the crawl, for the further properties *)

(** The raw values [Parse] hands to [processURL], in document order: at
    every [a], [link], [img] and [script] element, the value of the first
    attribute that has the link key, if there is one. *)
Fixpoint firstLinks (n : html.Node) : list string :=
  match n with
  | html.mkNode ty data attrs children =>
      (match ty with
       | html.ElementNode =>
           if negb (String.eqb (linkAttr data) "") then
             match List.find (fun a => String.eqb (html.Key a) (linkAttr data))
                             attrs with
             | Some a => [html.Val a]
             | None => []
             end
           else []
       | _ => []
       end ++ flat_map firstLinks children)%list
  end.

(** An attribute with the value of a link attribute wiped out. *)
Definition blankAttr (attr : string) (a : html.Attribute) : html.Attribute :=
  if String.eqb (html.Key a) attr
  then html.mkAttr (html.Namespace a) (html.Key a) ""
  else a.

(** A document with the values of its link attributes wiped out: what is
    left is everything but the values [linkValues] lists. *)
Fixpoint blank (n : html.Node) : html.Node :=
  match n with
  | html.mkNode ty data attrs children =>
      html.mkNode ty data
        (match ty with
         | html.ElementNode =>
             if negb (String.eqb (linkAttr data) "")
             then map (blankAttr (linkAttr data)) attrs
             else attrs
         | _ => attrs
         end)
        (map blank children)
  end.

(** The queue and the files of an outcome of [Start], where it has them. *)
Definition outcomeQueue (o : Mirror.Outcome) : option Queue :=
  match o with
  | Mirror.Returned q _ | Mirror.ReceiveBlocks q _
  | Mirror.SendBlocked q _ | Mirror.Running q _ => Some q
  | Mirror.Panics => None
  end.

Definition outcomeFiles (o : Mirror.Outcome) : option FS :=
  match o with
  | Mirror.Returned _ fs | Mirror.ReceiveBlocks _ fs
  | Mirror.SendBlocked _ fs | Mirror.Running _ fs => Some fs
  | Mirror.Panics => None
  end.

(** The queue a piece of code that sends has got to, parked or not. *)
Definition sentQueue (s : Sent) : option Queue :=
  match s with
  | Next q | SendBlocks q => Some q
  | SendPanics => None
  end.

(** The invariant of the queue: the resources waiting in the channel have
    pairwise different URLs, and each of these URLs is marked as
    processed. *)
Definition queueInvariant (q : Queue) : Prop :=
  List.NoDup (map Resource.URL (Resources q))
  /\ Forall (fun r => isProcessed q (Resource.URL r) = true) (Resources q).

(** A reject entry that can match an extension as [processURL] compares
    them: with no upper-case letter of ASCII, no dot and no slash in it. *)
Definition effectiveEntry (e : string) : bool :=
  String.eqb (gostrings.lowerASCII e) e
  && negb (neturl.contains "." e) && negb (neturl.contains "/" e).

(** A parser with another reject list. *)
Definition withRejectTypes (rejects : list string) (p : Parser.t) : Parser.t :=
  Parser.mk (Parser.baseURL p)
            (Config.mk (Config.URL (Parser.config p)) rejects
                       (Config.ExcludePaths (Parser.config p))
                       (Config.ConvertLinks (Parser.config p))
                       (Config.OutputDir (Parser.config p))).

Section CrawlSteps.
Context {U : neturl.Lib} {L : gostrings.Lib}.

(** What a crawl does to the queue from one point to a later one: calls
    of [processURL] that come back, for whatever value, and receives of
    the range loop of [Start], in any number and order. *)
Inductive crawlsTo (p : Parser.t) : Queue -> Queue -> Prop :=
| crawl_here q : crawlsTo p q q
| crawl_processURL rawURL q q1 q2 :
    Parser.processURL p rawURL q = Next q1 ->
    crawlsTo p q1 q2 -> crawlsTo p q q2
| crawl_recv r q q1 q2 :
    recv q = Item r q1 ->
    crawlsTo p q1 q2 -> crawlsTo p q q2.

End CrawlSteps.

(** The queue [Start] hands to its loop: the seed pushed, and marked
    under the string of the configuration. *)
Definition seeded (m : Mirror.t) (q : Queue) : option Queue :=
  match send (Mirror.initialResource m) q with
  | Next q => Some (setProcessed (Config.URL (Mirror.config m)) q)
  | _ => None
  end.

(** The small site again, its seed written with the scheme in upper
    case. *)
Definition cfgUpper : Config.t :=
  Config.mk "HTTP://example.test/index.html" ["jpg"] [] true "out".

Definition mUpper : Mirror.t :=
  Mirror.mk cfgUpper (Parser.mk site.base cfgUpper)
            (Converter.mk site.base cfgUpper).



(** The queue [Start] hands to its loop for [mUpper]. *)
Definition qUpper : Queue :=
  mkQueue [Resource.mk "HTTP://example.test/index.html" "out/index.html"
                       "" true]
          false
          {["HTTP://example.test/index.html" := true]}.

(** A page with one link, to [/a.html]. *)
Definition linkA : html.Node := site.element "a" [("href", "/a.html")] [].

(** A converter for the host and the output directory of the small site,
    with another seed, other filters and the conversion flag off. *)
Definition cOther : Converter.t :=
  Converter.mk
    (neturl.mkURL "https" "" "example.test" "/deep/page.html" false false "" "")
    (Config.mk "https://example.test/deep/page.html" ["JPG"; "css"]
               ["/private"] false "out").

(** The queue and the files of the crawl of the small site after five
    rounds, started with one file of the user's in place. *)
Definition notes : FS := {["notes.txt" := "keep"]}.

Definition crawledQueue : Queue :=
  match outcomeQueue
          (Mirror.Start (U := neturl.plain) (L := gostrings.bytewise)
                        (H := site.lib site.pages)
                        5 site.m site.world NewQueue notes) with
  | Some q => q
  | None => NewQueue
  end.

Definition crawledFiles : FS :=
  match outcomeFiles
          (Mirror.Start (U := neturl.plain) (L := gostrings.bytewise)
                        (H := site.lib site.pages)
                        5 site.m site.world NewQueue notes) with
  | Some fs => fs
  | None => ∅
  end.

(** The flags of a plain download into the directory [dir]. *)
Definition flagsInto (dir : string) : wget.Config :=
  wget.mkConfig "" dir false "" 0 "" false "" "" false.

(** A queue whose buffer is full: a thousand copies of one resource. *)
Definition fullQueue : Queue :=
  mkQueue (repeat (Resource.mk "http://example.test/x" "out/x" "" false)
                  capacity)
          false ∅.

(** * Properties *)

(** ** The library models on examples *)

Example Clean_examples :
  gopath.Clean "a//b/./c/../d/" = "a/b/d"
  /\ gopath.Clean "/../a/../../b" = "/b"
  /\ gopath.Clean "../a/../../b/" = "../../b"
  /\ gopath.Clean "a/.." = "."
  /\ gopath.Clean "/" = "/".
Proof. repeat apply conj; vm_compute; reflexivity. Qed.

Example Join_examples :
  gopath.Join ["out"; "example.test"; "/a/b.html"] = "out/example.test/a/b.html"
  /\ gopath.Join [""; ""] = ""
  /\ filepath.Join ["out"; ""; "/a/b.html"] = "out/a/b.html".
Proof. repeat apply conj; vm_compute; reflexivity. Qed.

Example Ext_Base_Dir_examples :
  gopath.Ext "/a.b/c.tar.GZ" = ".GZ"
  /\ gopath.Ext "/a.b/c" = ""
  /\ gopath.Base "http://example.test/index.html" = "index.html"
  /\ gopath.Base "http://example.test///" = "example.test"
  /\ gopath.Base "///" = "/"
  /\ filepath.Dir "out/example.test/index.html" = "out/example.test"
  /\ filepath.Dir "index.html" = "."
  /\ filepath.Dir "/index.html" = "/".
Proof. repeat apply conj; vm_compute; reflexivity. Qed.

Example url_examples :
  let resolve r :=
    option_map (fun u => neturl.plain_String
                           (neturl.plain_ResolveReference site.base u))
               (neturl.plain_Parse r) in
  map resolve ["a.html"; "/a.html#x"; "../b/c.css?x=1"; "//other.test/x.png";
               "?q"; "x/../y/./z/"; "a?"; ":a"; "a b"]
  = [Some "http://example.test/a.html"; Some "http://example.test/a.html#x";
     Some "http://example.test/b/c.css?x=1"; Some "http://other.test/x.png";
     Some "http://example.test/index.html?q"; Some "http://example.test/y/z/";
     Some "http://example.test/a?"; None; None].
Proof. vm_compute. reflexivity. Qed.

(** ** parseRateLimit *)

Section Rates.
Context {L : gostrings.Lib}.

(** On ASCII strings the result is the same for every lower-casing
    library. *)
Example parseRateLimit_examples :
  main.parseRateLimit "400K" = (409600, None)
  /\ main.parseRateLimit "2m" = (2097152, None)
  /\ main.parseRateLimit "-3" = (-3, None)
  /\ main.parseRateLimit "k" = (0, Some strconv.ErrSyntax)
  /\ main.parseRateLimit "4 k" = (0, Some strconv.ErrSyntax)
  /\ main.parseRateLimit "9007199254740992k" = (- 2 ^ 63, None).
Proof. repeat apply conj; vm_compute; reflexivity. Qed.

Lemma digit_range c d : strconv.digit c = Some d -> 0 <= d <= 9.
Proof.
  unfold strconv.digit. intros Hd.
  destruct (_ && _) eqn:E; [|discriminate]. injection Hd as <-.
  apply andb_true_iff in E as [E1 E2]. lia.
Qed.

Lemma digits_value_lower s : forall acc v,
  0 <= acc -> digits_value s acc = Some v -> acc <= v.
Proof.
  induction s as [|c r IH]; simpl; intros acc v Hacc Hv.
  - injection Hv as <-. lia.
  - destruct (strconv.digit c) as [d|] eqn:Ed; [|discriminate].
    apply digit_range in Ed. apply IH in Hv; lia.
Qed.

(** The loop of [ParseUint] computes the value of a digit string that fits
    a uint64 and reports everything else. *)
Lemma ParseUint_loop_spec s : forall n, 0 <= n <= strconv.maxUint64 ->
  match digits_value s n with
  | Some v =>
      if v <=? strconv.maxUint64 then strconv.ParseUint_loop s n = (v, None)
      else strconv.ParseUint_loop s n = (strconv.maxUint64, Some strconv.ErrRange)
  | None =>
      strconv.ParseUint_loop s n = (0, Some strconv.ErrSyntax)
      \/ strconv.ParseUint_loop s n = (strconv.maxUint64, Some strconv.ErrRange)
  end.
Proof.
  unfold strconv.maxUint64.
  induction s as [|c r IH]; intros n Hn; simpl.
  - destruct (n <=? 2 ^ 64 - 1) eqn:E; [reflexivity|]. lia.
  - destruct (strconv.digit c) as [d|] eqn:Ed; [|now left].
    apply digit_range in Ed.
    unfold strconv.maxUint64.
    change ((2 ^ 64 - 1) / 10 + 1) with 1844674407370955162.
    change (2 ^ 64) with 18446744073709551616 in *.
    destruct (n >=? 1844674407370955162) eqn:Ec.
    + destruct (digits_value r (n * 10 + d)) as [v|] eqn:Ev; [|now right].
      apply digits_value_lower in Ev; [|lia].
      destruct (v <=? _) eqn:E; [lia|reflexivity].
    + rewrite (Z.mod_small (n * 10)) by lia.
      destruct (Z_lt_dec (n * 10 + d) 18446744073709551616) as [Hlt|Hge].
      * rewrite (Z.mod_small (n * 10 + d)) by lia.
        replace ((n * 10 + d <? n * 10)
                 || (n * 10 + d >? 18446744073709551616 - 1)) with false
          by (symmetry; apply orb_false_iff; split; lia).
        apply IH. lia.
      * assert (Hm : (n * 10 + d) mod 18446744073709551616
                     = n * 10 + d - 18446744073709551616).
        { symmetry. apply (Z.mod_unique _ _ 1); lia. }
        rewrite Hm.
        replace (n * 10 + d - 18446744073709551616 <? n * 10) with true
          by (symmetry; lia).
        simpl.
        destruct (digits_value r (n * 10 + d)) as [v|] eqn:Ev; [|now right].
        apply digits_value_lower in Ev; [|lia].
        destruct (v <=? _) eqn:E; [lia|reflexivity].
Qed.

Lemma ParseUint_spec s :
  match (if String.eqb s "" then None else digits_value s 0) with
  | Some v =>
      if v <=? strconv.maxUint64 then strconv.ParseUint s = (v, None)
      else strconv.ParseUint s = (strconv.maxUint64, Some strconv.ErrRange)
  | None =>
      strconv.ParseUint s = (0, Some strconv.ErrSyntax)
      \/ strconv.ParseUint s = (strconv.maxUint64, Some strconv.ErrRange)
  end.
Proof.
  destruct s as [|c r]; [now left|].
  change (String c r =? "")%string with false. cbv iota.
  apply (ParseUint_loop_spec (String c r) 0). unfold strconv.maxUint64. lia.
Qed.

(** Splits on the int64 range test of the goal and on the comparisons
    [ParseInt] makes, and closes what arithmetic decides. *)
Ltac int64_cases :=
  change (2 ^ 64) with 18446744073709551616 in *;
  change (2 ^ 63) with 9223372036854775808 in *;
  repeat match goal with
         | |- context [?x >=? ?y] => destruct (x >=? y) eqn:?
         | |- context [?x >? ?y] => destruct (x >? y) eqn:?
         end;
  match goal with
  | |- context [(?a <=? ?v) && (?v <? ?b)] =>
      let E := fresh "E" in
      destruct ((a <=? v) && (v <? b)) eqn:E;
      [apply andb_true_iff in E as [? ?] | apply andb_false_iff in E as [?|?]]
  end;
  cbn [negb andb]; try lia; try reflexivity; eauto.

(** What [ParseInt] does after the sign, for the unsigned part [t]. *)
Lemma ParseInt_unsigned (neg : bool) (t : string) :
  match (if String.eqb t "" then None else digits_value t 0) with
  | Some v =>
      let v' := if neg then - v else v in
      if (- 2 ^ 63 <=? v') && (v' <? 2 ^ 63) then
        (let '(un, err) := strconv.ParseUint t in
         match err with
         | Some strconv.ErrSyntax => (0, Some strconv.ErrSyntax)
         | _ =>
             if negb neg && (un >=? 2 ^ 63)
             then (2 ^ 63 - 1, Some strconv.ErrRange)
             else if neg && (un >? 2 ^ 63) then (- 2 ^ 63, Some strconv.ErrRange)
             else (if neg then - un else un, None)
         end) = (v', None)
      else
        exists r,
        (let '(un, err) := strconv.ParseUint t in
         match err with
         | Some strconv.ErrSyntax => (0, Some strconv.ErrSyntax)
         | _ =>
             if negb neg && (un >=? 2 ^ 63)
             then (2 ^ 63 - 1, Some strconv.ErrRange)
             else if neg && (un >? 2 ^ 63) then (- 2 ^ 63, Some strconv.ErrRange)
             else (if neg then - un else un, None)
         end) = (r, Some strconv.ErrRange)
  | None =>
      exists r e,
      (let '(un, err) := strconv.ParseUint t in
       match err with
       | Some strconv.ErrSyntax => (0, Some strconv.ErrSyntax)
       | _ =>
           if negb neg && (un >=? 2 ^ 63)
           then (2 ^ 63 - 1, Some strconv.ErrRange)
           else if neg && (un >? 2 ^ 63) then (- 2 ^ 63, Some strconv.ErrRange)
           else (if neg then - un else un, None)
       end) = (r, Some e)
  end.
Proof.
  pose proof (ParseUint_spec t) as HU.
  destruct (if String.eqb t "" then None else digits_value t 0) as [v|] eqn:Ev.
  - assert (0 <= v).
    { destruct (String.eqb t ""); [discriminate|].
      apply digits_value_lower in Ev; lia. }
    unfold strconv.maxUint64 in HU. cbv zeta.
    destruct (v <=? _) eqn:E1 in HU; rewrite HU; destruct neg; cbn [negb andb];
      int64_cases.
  - destruct HU as [-> | ->]; destruct neg; cbn; eauto.
Qed.

(** [ParseInt] accepts exactly the decimal integers of the int64 range. *)
Lemma ParseInt_spec s :
  match decimal_value s with
  | Some v =>
      if (- 2 ^ 63 <=? v) && (v <? 2 ^ 63) then strconv.ParseInt s = (v, None)
      else exists r, strconv.ParseInt s = (r, Some strconv.ErrRange)
  | None => exists r e, strconv.ParseInt s = (r, Some e)
  end.
Proof.
  destruct s as [|c r]; [simpl; eauto|].
  unfold decimal_value, strconv.ParseInt.
  destruct (Ascii.eqb c "+") eqn:Eplus; [|destruct (Ascii.eqb c "-") eqn:Eminus].
  - pose proof (ParseInt_unsigned false r) as HP.
    destruct (String.eqb r ""); [exact HP|].
    destruct (digits_value r 0); exact HP.
  - pose proof (ParseInt_unsigned true r) as HP.
    destruct (String.eqb r ""); [exact HP|].
    destruct (digits_value r 0); exact HP.
  - exact (ParseInt_unsigned false (String c r)).
Qed.

Lemma trailing_HasSuffix c s :
  trailing c s =
  if gostrings.HasSuffix s (String c EmptyString)
  then Some (main.dropLast s) else None.
Proof.
  unfold gostrings.HasSuffix, main.dropLast.
  induction s as [|x r IH]; [reflexivity|].
  destruct r as [|y r'].
  - simpl. destruct (Ascii.eqb x c); reflexivity.
  - change (trailing c (String x (String y r')))
      with (option_map (String x) (trailing c (String y r'))).
    rewrite IH. clear IH.
    cbn [String.length Nat.leb Nat.sub andb].
    rewrite !Nat.sub_0_r.
    cbn [String.substring].
    destruct (String.eqb _ _); reflexivity.
Qed.

(** C10, as amended.  [parseRateLimit] returns [(0, nil)] for the empty
    string; for every other input it lower-cases the string, takes 1024 as
    the factor for a trailing [k] and 1048576 for a trailing [m], and
    returns an error exactly when what remains is not a decimal integer
    (an optional sign, then digits) of the int64 range; otherwise it
    returns that integer times the factor, wrapped to an int64. *)
Theorem C10_parseRateLimit_refines (s : string) :
  match rate_spec s with
  | Some v => main.parseRateLimit s = (v, None)
  | None => exists e, main.parseRateLimit s = (0, Some e)
  end.
Proof.
  unfold rate_spec, main.parseRateLimit.
  destruct (String.eqb s "") eqn:Es; [reflexivity|].
  rewrite !trailing_HasSuffix.
  set (l := gostrings.ToLower s).
  assert (Hgen : forall m p,
    match
      match decimal_value p with
      | Some v =>
          if (- 2 ^ 63 <=? v) && (v <? 2 ^ 63)
          then Some (main.wrap64 (v * m)) else None
      | None => None
      end
    with
    | Some v =>
        (let '(rate, err) := strconv.ParseInt p in
         match err with
         | Some e => (0, Some e)
         | None => (main.wrap64 (rate * m), None)
         end) = (v, None)
    | None =>
        exists e,
        (let '(rate, err) := strconv.ParseInt p in
         match err with
         | Some e => (0, Some e)
         | None => (main.wrap64 (rate * m), None)
         end) = (0, Some e)
    end).
  { intros m p. pose proof (ParseInt_spec p) as HP.
    destruct (decimal_value p) as [v|].
    - destruct ((_ <=? v) && (v <? _)).
      + rewrite HP. reflexivity.
      + destruct HP as [r ->]. eauto.
    - destruct HP as (r & e & ->). eauto. }
  destruct (gostrings.HasSuffix l "k"); [apply Hgen|].
  destruct (gostrings.HasSuffix l "m"); apply Hgen.
Qed.

End Rates.

(** C10 as stated fails: 2^63 written out is a decimal integer, and
    [parseRateLimit] returns an error for it. *)
Lemma C10_counterexample :
  decimal_value "9223372036854775808" = Some 9223372036854775808
  /\ main.parseRateLimit (L := gostrings.bytewise) "9223372036854775808"
     = (0, Some strconv.ErrRange).
Proof. split; vm_compute; reflexivity. Qed.

(** ** The crawl, for every implementation of the URL and HTML libraries *)

Section CrawlProperties.
Context {U : neturl.Lib} {L : gostrings.Lib} {H : html.Lib}.

(** *** processURL *)

(** [processURL] in one piece: the candidate is resolved, filtered, and
    pushed when its key is new. *)
Lemma processURL_unfold p rawURL q :
  Parser.processURL p rawURL q =
  match resolved p rawURL with
  | None => Next q
  | Some u =>
      if passesFilters p u && negb (isProcessed q (neturl.ToString u))
      then send (resourceOf p u) (setProcessed (neturl.ToString u) q)
      else Next q
  end.
Proof.
  unfold Parser.processURL, resolved.
  destruct (_ || _); [reflexivity|].
  destruct (neturl.Parse rawURL) as [u0|]; [|reflexivity].
  set (u := if negb (neturl.IsAbs u0) then _ else _).
  unfold passesFilters, sameHost, excluded, rejected, resourceOf, lowerExt.
  destruct (String.eqb (neturl.Host u) _); [|reflexivity]. cbn [negb andb].
  destruct (existsb _ (Config.ExcludePaths _)); [reflexivity|]. cbn [negb andb].
  destruct (negb (String.eqb (gostrings.ToLower _) "") && _); [reflexivity|].
  cbn [negb].
  destruct (isProcessed q _); reflexivity.
Qed.

Lemma send_Next r q q' :
  send r q = Next q' ->
  q' = mkQueue (Resources q ++ [r]) (closed q) (Processed q).
Proof.
  unfold send. destruct (closed q); [discriminate|].
  destruct (_ <? _)%nat; [|discriminate]. now intros [= <-].
Qed.


(** What a call of [processURL] that comes back has done: nothing, or
    marked the URL and pushed its resource. *)
Lemma processURL_Next p rawURL q q' :
  Parser.processURL p rawURL q = Next q' ->
  q' = q
  \/ exists u,
       resolved p rawURL = Some u /\ passesFilters p u = true
       /\ isProcessed q (neturl.ToString u) = false
       /\ q' = mkQueue (Resources q ++ [resourceOf p u]) (closed q)
                       (<[neturl.ToString u := true]> (Processed q)).
Proof.
  rewrite processURL_unfold.
  destruct (resolved p rawURL) as [u|]; [|intros [= <-]; now left].
  destruct (passesFilters p u) eqn:Ea; [|intros [= <-]; now left].
  destruct (isProcessed q _) eqn:Ep; [intros [= <-]; now left|].
  cbn [negb andb]. intros Hs. apply send_Next in Hs. right.
  exists u. repeat split; assumption.
Qed.

(** [Processed] only grows. *)
Lemma processURL_Processed_mono p rawURL q q' k :
  Parser.processURL p rawURL q = Next q' ->
  isProcessed q k = true -> isProcessed q' k = true.
Proof.
  intros Hs Hk.
  apply processURL_Next in Hs as [-> | (u & _ & _ & _ & ->)]; [assumption|].
  unfold isProcessed in *. cbn [Processed].
  rewrite lookup_insert. destruct (decide _); [reflexivity | assumption].
Qed.

Lemma processURLs_Processed_mono p raws : forall q q' k,
  processURLs p raws q = Next q' ->
  isProcessed q k = true -> isProcessed q' k = true.
Proof.
  induction raws as [|r raws IH]; simpl; intros q q' k Hs Hk.
  - now injection Hs as <-.
  - destruct (Parser.processURL p r q) as [q1| |] eqn:E1; try discriminate.
    eapply IH; [exact Hs|]. eapply processURL_Processed_mono; eassumption.
Qed.


Lemma crawlsTo_trans p q1 q2 q3 :
  crawlsTo p q1 q2 -> crawlsTo p q2 q3 -> crawlsTo p q1 q3.
Proof.
  induction 1 as [q | rawURL q q1 q2 Hstep _ IH | r q q1 q2 Hrecv _ IH];
    intros H23; [assumption| |].
  - eapply crawl_processURL; [exact Hstep | now apply IH].
  - eapply crawl_recv; [exact Hrecv | now apply IH].
Qed.


(** What holds of the filters: whenever [processURL] does anything at all,
    the host of the candidate is the seed host, no exclude prefix is a
    prefix of its path, and its extension, lower-cased and without the dot,
    is not literally an entry of the reject list. *)
Lemma processURL_pushes_only_filtered p rawURL q :
  Parser.processURL p rawURL q <> Next q ->
  exists u, resolved p rawURL = Some u
    /\ neturl.Host u = neturl.Host (Parser.baseURL p)
    /\ (forall exclude, In exclude (Config.ExcludePaths (Parser.config p)) ->
          gostrings.HasPrefix (neturl.Path u) exclude = false)
    /\ (lowerExt u <> "" ->
        ~ In (Parser.removeDot (lowerExt u)) (Config.RejectTypes (Parser.config p))).
Proof.
  rewrite processURL_unfold.
  destruct (resolved p rawURL) as [u|]; [|now intros []].
  destruct (passesFilters p u) eqn:Ea; [|now intros []]. intros _.
  exists u. split; [reflexivity|].
  unfold passesFilters in Ea.
  apply andb_true_iff in Ea as [Ea Hr]. apply andb_true_iff in Ea as [Hh He].
  split; [now apply String.eqb_eq|]. split.
  - intros ex Hin. apply negb_true_iff in He. unfold excluded in He.
    destruct (gostrings.HasPrefix _ ex) eqn:E; [|reflexivity].
    assert (existsb (fun exclude => gostrings.HasPrefix (neturl.Path u) exclude)
                    (Config.ExcludePaths (Parser.config p)) = true)
      by (apply existsb_exists; eauto).
    congruence.
  - intros Hne Hin. apply negb_true_iff in Hr. unfold rejected in Hr.
    apply andb_false_iff in Hr as [Hr | Hr].
    + apply negb_false_iff, String.eqb_eq in Hr. contradiction.
    + assert (existsb (String.eqb (Parser.removeDot (lowerExt u)))
                      (Config.RejectTypes (Parser.config p)) = true).
      { apply existsb_exists. eexists; split; [exact Hin|]. apply String.eqb_refl. }
      congruence.
Qed.

(** *** IsHTML *)

Lemma Ext_scan_dot rp : forall acc,
  gopath.Ext_scan rp acc = []
  \/ exists l, gopath.Ext_scan rp acc = gopath.dot :: l.
Proof.
  induction rp as [|c r IH]; intros acc; simpl; [now left|].
  destruct (Ascii.eqb c gopath.slash); [now left|].
  destruct (Ascii.eqb c gopath.dot) eqn:E; [|apply IH].
  apply Ascii.eqb_eq in E as ->. right. eauto.
Qed.

(** An extension is empty or begins with the dot. *)
Lemma Ext_dot path :
  gopath.Ext path = "" \/ exists t, gopath.Ext path = String gopath.dot t.
Proof.
  unfold gopath.Ext.
  destruct (Ext_scan_dot (rev (list_ascii_of_string path)) []) as [-> | [l ->]];
    [now left|right]. simpl. eauto.
Qed.

Lemma substring_all t : String.substring 0 (String.length t) t = t.
Proof. induction t as [|c t IH]; simpl; [reflexivity | now rewrite IH]. Qed.

Lemma removeDot_String c t : Parser.removeDot (String c t) = t.
Proof.
  unfold Parser.removeDot. cbn [String.length Nat.sub]. rewrite Nat.sub_0_r.
  cbn [String.substring]. apply substring_all.
Qed.

Lemma isASCII_dot t : gostrings.isASCII (String "." t) = gostrings.isASCII t.
Proof. reflexivity. Qed.

(** Lower-casing keeps a leading dot and lowers the rest on its own. *)
Lemma ToLower_dot t :
  gostrings.ToLower (String "." t) = String "." (gostrings.ToLower t).
Proof.
  unfold gostrings.ToLower. rewrite isASCII_dot.
  destruct (gostrings.isASCII t); reflexivity.
Qed.

Lemma skip_length n : forall s,
  (String.length (gostrings.skip n s) <= String.length s)%nat.
Proof.
  induction n as [|n IH]; intros [|c r]; cbn [gostrings.skip String.length];
    try lia.
  specialize (IH r). lia.
Qed.

(** The fuel of [ToLower] is enough: more of it changes nothing. *)
Lemma mapLower_fuel fuel1 : forall fuel2 s,
  (String.length s <= fuel1)%nat -> (String.length s <= fuel2)%nat ->
  gostrings.mapLower fuel1 s = gostrings.mapLower fuel2 s.
Proof.
  induction fuel1 as [|fuel1 IH]; intros fuel2 [|c r] H1 H2;
    cbn [String.length] in *; try lia; destruct fuel2; try lia;
    try reflexivity.
  cbn [gostrings.mapLower].
  destruct (gostrings.below_RuneSelf c).
  - f_equal. apply IH; lia.
  - destruct (gostrings.lowerRune (String c r)) as [out more].
    f_equal. pose proof (skip_length more r). apply IH; lia.
Qed.

Lemma resourceOf_IsHTML p u :
  Resource.IsHTML (resourceOf p u) = isHTMLPath (neturl.Path u).
Proof.
  unfold resourceOf, isHTMLPath, lowerExt. cbn [Resource.IsHTML].
  destruct (Ext_dot (neturl.Path u)) as [-> | [t ->]]; [reflexivity|].
  unfold gopath.dot. rewrite ToLower_dot.
  cbn [String.eqb negb]. rewrite removeDot_String.
  change (String.eqb (String "." (gostrings.ToLower t)) ".html")
    with (String.eqb (gostrings.ToLower t) "html").
  change (String.eqb (String "." (gostrings.ToLower t)) ".htm")
    with (String.eqb (gostrings.ToLower t) "htm").
  reflexivity.
Qed.

(** C8, as amended.  For every candidate URL that survives the filters,
    the enqueued Resource has IsHTML=true exactly when the extension of the
    URL's path, lower-cased, is html or htm; otherwise, and so for a path
    with no extension at all, IsHTML=false. *)
Theorem C8_IsHTML_by_extension p rawURL q q' r :
  Parser.processURL p rawURL q = Next q' ->
  Resources q' = (Resources q ++ [r])%list ->
  exists u, resolved p rawURL = Some u
    /\ Resource.URL r = neturl.ToString u
    /\ Resource.IsHTML r = isHTMLPath (neturl.Path u).
Proof.
  intros Hs Hr.
  apply processURL_Next in Hs as [-> | (u & Hu & _ & _ & ->)].
  - apply (f_equal (@List.length _)) in Hr. rewrite length_app in Hr.
    simpl in Hr. lia.
  - cbn [Resources] in Hr. apply app_inv_head in Hr. injection Hr as <-.
    exists u. split; [assumption|]. split; [reflexivity|].
    apply resourceOf_IsHTML.
Qed.

(** *** The converter *)

Lemma Node_ind' (P : html.Node -> Prop) :
  (forall ty data attrs children,
      Forall P children -> P (html.mkNode ty data attrs children)) ->
  forall n, P n.
Proof.
  intros Hnode. fix IH 1. intros [ty data attrs children].
  apply Hnode. induction children as [|ch chs IHchs]; constructor.
  - apply IH.
  - exact IHchs.
Qed.

Lemma convertAttr_Key c attr basePath a :
  html.Key (Converter.convertAttr c attr basePath a) = html.Key a.
Proof.
  unfold Converter.convertAttr.
  destruct (String.eqb _ attr); [|reflexivity].
  destruct (negb _); reflexivity.
Qed.








(** [ConvertLinks] on a file: when it succeeds, the file holds the
    rendering of the converted tree of its former content, and no other
    file has changed. *)
Lemma ConvertLinks_writes w c filePath fs fs' :
  Converter.ConvertLinks w c filePath fs = (fs', None) ->
  exists content doc buf,
    fs !! filePath = Some content
    /\ html.Parse content = Some doc
    /\ html.Render (Converter.convertNode c doc (filepath.Dir filePath))
       = Some buf
    /\ fs' = <[filePath := buf]> fs.
Proof.
  unfold Converter.ConvertLinks.
  destruct (fs !! filePath) as [content|] eqn:Ef; [|discriminate].
  destruct (html.Parse content) as [doc|] eqn:Ep; [|discriminate].
  destruct (html.Render _) as [buf|] eqn:Er; [|discriminate].
  destruct (Create w fs filePath); cbn [negb]; [|discriminate].
  destruct (WriteStops w filePath buf); [discriminate|].
  intros [= <-]. exists content, doc, buf.
  repeat apply conj; first [reflexivity | assumption].
Qed.

(** *** The downloader *)

(** C7, as amended.  The fetch of a resource succeeds exactly when the
    directory can be made, the GET comes back with status 200 (no other
    status, 2xx or not, will do), the file can be created and the copy
    runs through; the whole body is then the content of the file at
    LocalPath.  In every other case [downloadResource] returns an error. *)
Theorem C7_fetch_succeeds_iff w r fs fs' :
  Downloader.downloadResource w r fs = (fs', None)
  <-> MkdirAll w fs (filepath.Dir (Resource.LocalPath r)) = true
      /\ exists resp,
           Get w (Resource.URL r) = Some resp
           /\ StatusCode resp = 200
           /\ Create w fs (Resource.LocalPath r) = true
           /\ CopyStops w (Resource.LocalPath r) resp = None
           /\ fs' = <[Resource.LocalPath r := Body resp]> fs.
Proof.
  unfold Downloader.downloadResource, Downloader.StatusOK.
  split.
  - destruct (MkdirAll w fs _); cbn [negb]; [|discriminate].
    destruct (Get w _) as [resp|]; [|discriminate].
    destruct (StatusCode resp =? 200) eqn:Es; cbn [negb]; [|discriminate].
    destruct (Create w fs _); cbn [negb]; [|discriminate].
    destruct (CopyStops w _ resp) eqn:Ec; [discriminate|].
    intros [= <-]. apply Z.eqb_eq in Es. split; [reflexivity|].
    exists resp. auto.
  - intros (-> & resp & -> & Hs & -> & -> & ->).
    apply Z.eqb_eq in Hs. rewrite Hs. reflexivity.
Qed.

(** Every status but 200 is an error, the 2xx ones included. *)
Lemma downloadResource_status w r fs resp :
  MkdirAll w fs (filepath.Dir (Resource.LocalPath r)) = true ->
  Get w (Resource.URL r) = Some resp ->
  StatusCode resp <> 200 ->
  Downloader.downloadResource w r fs
  = (fs, Some (Downloader.StatusError (StatusCode resp))).
Proof.
  intros Hm Hg Hs. unfold Downloader.downloadResource, Downloader.StatusOK.
  rewrite Hm, Hg. apply Z.eqb_neq in Hs. now rewrite Hs.
Qed.

(** C9, as amended.  When the fetch of a resource fails before the body is
    copied (the directory cannot be made, the network fails, the status is
    not 200, or the file cannot be created), [downloadResource] leaves
    every file as it was, so that no file appears at the resource's
    LocalPath. *)
Theorem C9_early_errors_write_nothing w r fs fs' e :
  Downloader.downloadResource w r fs = (fs', Some e) ->
  e <> Downloader.CopyError ->
  fs' = fs.
Proof.
  unfold Downloader.downloadResource.
  destruct (MkdirAll w fs _); cbn [negb]; [|now intros [= <- _]].
  destruct (Get w _) as [resp|]; [|now intros [= <- _]].
  destruct (negb (StatusCode resp =? _)); [now intros [= <- _]|].
  destruct (Create w fs _); cbn [negb]; [|now intros [= <- _]].
  destruct (CopyStops w _ resp); [|discriminate].
  intros [= _ <-]. contradiction.
Qed.

(** A copy that breaks off leaves what it had written. *)
Lemma downloadResource_CopyError w r fs fs' :
  Downloader.downloadResource w r fs = (fs', Some Downloader.CopyError) ->
  exists resp n,
    Get w (Resource.URL r) = Some resp
    /\ fs' !! Resource.LocalPath r = Some (String.substring 0 n (Body resp)).
Proof.
  unfold Downloader.downloadResource.
  destruct (MkdirAll w fs _); cbn [negb]; [|discriminate].
  destruct (Get w _) as [resp|]; [|discriminate].
  destruct (negb (StatusCode resp =? _)); [discriminate|].
  destruct (Create w fs _); cbn [negb]; [|discriminate].
  destruct (CopyStops w _ resp) as [n|]; [|discriminate].
  intros [= <-]. exists resp, n. split; [reflexivity|].
  apply lookup_insert_eq.
Qed.

(** *** Start *)

Lemma loop_never_returns rounds m w : forall q fs,
  hasReturned (Mirror.loop rounds m w q fs) = false.
Proof.
  induction rounds as [|rounds IH]; intros q fs; cbn [Mirror.loop];
    [reflexivity|].
  unfold recv, Mirror.close.
  destruct (Resources q) as [|r rest].
  - destruct (closed q); reflexivity.
  - destruct (Mirror.process m w r _ fs) as [[q1|q1|] fs1];
      [apply IH | reflexivity | reflexivity].
Qed.

(** C1 fails on the code.  Whatever the site, the queue and the files,
    and however many rounds the loop of [Start] is given, [Start] has not
    returned: the range loop ends only on a closed channel, and the only
    close is deferred to the end of the loop. *)
Theorem C1_Start_never_returns rounds m w q fs :
  hasReturned (Mirror.Start rounds m w q fs) = false.
Proof.
  unfold Mirror.Start.
  destruct (send _ q); [apply loop_never_returns | reflexivity | reflexivity].
Qed.

Lemma send_keepsOpen r q : closed q = false -> keepsOpen (send r q).
Proof.
  unfold send. intros Hq. rewrite Hq.
  destruct (_ <? _)%nat; cbn; [reflexivity | assumption].
Qed.

Lemma processURL_keepsOpen p rawURL q :
  closed q = false -> keepsOpen (Parser.processURL p rawURL q).
Proof.
  intros Hq. rewrite processURL_unfold.
  destruct (resolved p rawURL) as [u|]; [|exact Hq].
  destruct (_ && _); [|exact Hq].
  now apply send_keepsOpen.
Qed.

Lemma walk_keepsOpen p n : forall q,
  closed q = false -> keepsOpen (Parser.walk p n q).
Proof.
  induction n as [ty data attrs children IH] using Node_ind'.
  intros q Hq. cbn [Parser.walk].
  match goal with
  | |- keepsOpen (match ?v with _ => _ end) =>
      assert (Hv : keepsOpen v); [|destruct v as [q1|q1|]; try exact Hv]
  end.
  { destruct ty; try exact Hq.
    destruct (negb _); [|exact Hq].
    destruct (List.find _ attrs); [|exact Hq].
    now apply processURL_keepsOpen. }
  cbn in Hv. revert q1 Hv.
  induction IH as [|ch chs Hch _ IHchs]; intros q1 Hq1; [exact Hq1|].
  specialize (Hch q1 Hq1).
  destruct (Parser.walk p ch q1) as [q2|q2|]; try exact Hch.
  apply IHchs. exact Hch.
Qed.

Lemma process_keepsOpen m w r q fs :
  closed q = false -> keepsOpen (fst (Mirror.process m w r q fs)).
Proof.
  intros Hq. unfold Mirror.process.
  destruct (Downloader.downloadResource w r fs) as [fs1 [e|]]; [exact Hq|].
  destruct (Resource.IsHTML r); [|exact Hq].
  destruct (fs1 !! _) as [content|]; [|exact Hq].
  assert (Hp : keepsOpen (fst (Parser.Parse (Mirror.parser m) content q))).
  { unfold Parser.Parse. destruct (html.Parse content); [|exact Hq].
    now apply walk_keepsOpen. }
  destruct (fst (Parser.Parse _ content q)) as [q1|q1|]; try exact Hp.
  destruct (Config.ConvertLinks _); exact Hp.
Qed.

Lemma loop_parkedOrRunning rounds m w : forall q fs,
  closed q = false -> parkedOrRunning (Mirror.loop rounds m w q fs).
Proof.
  induction rounds as [|rounds IH]; intros q fs Hq; cbn [Mirror.loop];
    [exact I|].
  unfold recv. destruct (Resources q) as [|r rest].
  - rewrite Hq. exact I.
  - pose proof (process_keepsOpen m w r
                  (mkQueue rest (closed q) (Processed q)) fs Hq) as Hp.
    destruct (Mirror.process m w r _ fs) as [[q1|q1|] fs1]; cbn in Hp.
    + now apply IH.
    + exact I.
    + contradiction.
Qed.

(** On the queue [New] makes, [Start] neither returns nor panics: after
    any number of rounds its goroutine is parked or still at work. *)
Lemma Start_parkedOrRunning rounds m w fs :
  parkedOrRunning (Mirror.Start rounds m w NewQueue fs).
Proof.
  unfold Mirror.Start.
  pose proof (send_keepsOpen (Mirror.initialResource m) NewQueue eq_refl) as Hs.
  destruct (send _ NewQueue) as [q1|q1|]; cbn in Hs; [|exact I|contradiction].
  apply loop_parkedOrRunning. exact Hs.
Qed.

(** Once the goroutine is parked in the receive, further rounds change
    nothing. *)
Lemma loop_ReceiveBlocks_stable rounds m w : forall q fs q' fs' more,
  Mirror.loop rounds m w q fs = Mirror.ReceiveBlocks q' fs' ->
  Mirror.loop (rounds + more) m w q fs = Mirror.ReceiveBlocks q' fs'.
Proof.
  induction rounds as [|rounds IH]; intros q fs q' fs' more; cbn [Mirror.loop];
    [discriminate|].
  cbn [Nat.add Mirror.loop].
  destruct (recv q) as [r q0| |]; [|trivial|trivial].
  destruct (Mirror.process m w r q0 fs) as [[q1|q1|] fs1]; [apply IH|trivial|trivial].
Qed.

End CrawlProperties.

(** ** The crawl on the small site, with plain URLs *)

#[local] Existing Instance neturl.plain.
#[local] Existing Instance gostrings.bytewise.

(** [site.m] is the mirror [New] builds for the configuration of the
    site, on a fresh queue. *)
Lemma New_site : Mirror.New site.cfg = Some (site.m, NewQueue).
Proof. vm_compute. reflexivity. Qed.

(** On the small site the goroutine of [Start] is parked in the receive
    after five rounds, with four files written: the seed page twice,
    [a.html] and [style.css]. *)
Lemma Start_parks_on_site :
  exists q fs,
    Mirror.Start (H := site.lib site.pages) 5 site.m site.world NewQueue ∅
    = Mirror.ReceiveBlocks q fs
    /\ Resources q = []
    /\ map fst (map_to_list fs)
       = ["out/example.test/style.css"; "out/example.test/index.html";
          "out/example.test/a.html"; "out/index.html"].
Proof.
  eexists; eexists. split; [vm_compute; reflexivity|].
  apply conj; vm_compute; reflexivity.
Qed.

(** And stays parked there, whatever the number of rounds. *)
Lemma Start_stays_parked_on_site more :
  exists q fs,
    Mirror.Start (H := site.lib site.pages) (5 + more) site.m site.world
                 NewQueue ∅
    = Mirror.ReceiveBlocks q fs.
Proof.
  destruct Start_parks_on_site as (q & fs & Hs & _).
  exists q, fs. unfold Mirror.Start in *.
  destruct (send (Mirror.initialResource site.m) NewQueue) as [q0|q0|];
    try discriminate.
  now apply loop_ReceiveBlocks_stable.
Qed.



(** The seed is marked under the string of the configuration, as it was
    typed.  With the scheme in upper case that string is not what
    [u.String()] gives for the seed, and a link to the seed is queued: the
    seed is fetched twice, into two files. *)
Lemma seed_queued_again :
  Mirror.New cfgUpper = Some (mUpper, NewQueue)
  /\ seeded mUpper NewQueue = Some qUpper
  /\ option_map neturl.ToString (resolved (Mirror.parser mUpper) "index.html")
     = Some "http://example.test/index.html"
  /\ queued (Parser.processURL (Mirror.parser mUpper) "index.html" qUpper)
     = [Resource.mk "HTTP://example.test/index.html" "out/index.html" "" true;
        Resource.mk "http://example.test/index.html"
                    "out/example.test/index.html" "" true].
Proof. repeat apply conj; vm_compute; reflexivity. Qed.

(** C3 fails on the code.  Run into the same output directory, the crawl
    seeded at [index.html] gives that URL the path [out/index.html], and a
    crawl seeded at [a.html] that finds it as a link gives the same URL the
    path [out/example.test/index.html]. *)
Theorem C3_seed_path_differs :
  Mirror.initialResource site.m
  = Resource.mk "http://example.test/index.html" "out/index.html" "" true
  /\ Config.OutputDir site.cfg = Config.OutputDir site.cfg2
  /\ queued (Parser.processURL site.p2 "index.html" NewQueue)
     = [Resource.mk "http://example.test/index.html"
                    "out/example.test/index.html" "" true].
Proof. repeat apply conj; vm_compute; reflexivity. Qed.

(** C4 fails on the code.  With the reject list [JPG], the candidate
    [/img.jpg] is enqueued, although its extension is that entry up to
    case. *)
Theorem C4_uppercase_reject_entry :
  Config.RejectTypes (Parser.config site.pJPG) = ["JPG"]
  /\ gostrings.ToLower "JPG" = Parser.removeDot (gopath.Ext "/img.jpg")
  /\ queued (Parser.processURL site.pJPG "/img.jpg" NewQueue)
     = [Resource.mk "http://example.test/img.jpg" "out/example.test/img.jpg"
                    "" false].
Proof. repeat apply conj; vm_compute; reflexivity. Qed.



(** C7 as stated fails: 204 is a 2xx status, and the fetch fails. *)
Lemma C7_counterexample :
  Get site.world204 "http://example.test/index.html"
  = Some (mkResponse 204 "")
  /\ Downloader.downloadResource site.world204
       (Mirror.initialResource site.m) ∅
     = (∅, Some (Downloader.StatusError 204)).
Proof. split; vm_compute; reflexivity. Qed.

(** C8 as stated fails: [/about] has no extension, survives the filters,
    and is enqueued with IsHTML=false. *)
Lemma C8_counterexample :
  gopath.Ext "/about" = ""
  /\ queued (Parser.processURL site.p "/about" NewQueue)
     = [Resource.mk "http://example.test/about" "out/example.test/about"
                    "" false].
Proof. split; vm_compute; reflexivity. Qed.

(** The amended C8 at work: [/a.html] is pushed with IsHTML=true, and
    its path has the extension [.html]. *)
Lemma C8_witness :
  Parser.processURL site.p "/a.html" NewQueue = Next site.q1
  /\ Resources site.q1
     = (Resources NewQueue
        ++ [Resource.mk "http://example.test/a.html" "out/example.test/a.html"
                        "" true])%list
  /\ exists u, resolved site.p "/a.html" = Some u
       /\ "http://example.test/a.html" = neturl.ToString u
       /\ true = isHTMLPath (neturl.Path u).
Proof.
  assert (H1 : Parser.processURL site.p "/a.html" NewQueue = Next site.q1)
    by (vm_compute; reflexivity).
  assert (H2 : Resources site.q1
               = (Resources NewQueue
                  ++ [Resource.mk "http://example.test/a.html"
                                  "out/example.test/a.html" "" true])%list)
    by reflexivity.
  exact (conj H1 (conj H2
           (C8_IsHTML_by_extension site.p "/a.html" NewQueue site.q1 _ H1 H2))).
Defined.

(** C9 as stated fails: when the copy breaks off after six bytes, the
    fetch fails and the six bytes stay at LocalPath. *)
Lemma C9_counterexample :
  let result := Downloader.downloadResource site.worldBroken
                  (Mirror.initialResource site.m) ∅ in
  snd result = Some Downloader.CopyError
  /\ fst result !! "out/index.html" = Some "<html>".
Proof. split; vm_compute; reflexivity. Qed.

(** The amended C9 at work: a fetch that fails on the status 204 leaves
    the empty file system empty. *)
Lemma C9_witness :
  Downloader.downloadResource site.world204 (Mirror.initialResource site.m) ∅
  = (∅, Some (Downloader.StatusError 204))
  /\ Downloader.StatusError 204 <> Downloader.CopyError
  /\ (∅ : gmap string string) = ∅.
Proof.
  assert (H1 : Downloader.downloadResource site.world204
                 (Mirror.initialResource site.m) ∅
               = (∅, Some (Downloader.StatusError 204)))
    by (vm_compute; reflexivity).
  assert (H2 : Downloader.StatusError 204 <> Downloader.CopyError)
    by discriminate.
  exact (conj H1 (conj H2
           (C9_early_errors_write_nothing site.world204
              (Mirror.initialResource site.m) ∅ ∅ _ H1 H2))).
Defined.

(** ** Further properties of the code *)

Section MoreProperties.
Context {U : neturl.Lib} {L : gostrings.Lib} {H : html.Lib}.

(** *** The parser and the queue *)

Lemma processURLs_app p l1 : forall l2 q,
  processURLs p (l1 ++ l2) q =
  match processURLs p l1 q with
  | Next q' => processURLs p l2 q'
  | stuck => stuck
  end.
Proof.
  induction l1 as [|r l1 IH]; intros l2 q; [reflexivity|].
  cbn [app processURLs].
  destruct (Parser.processURL p r q); [apply IH | reflexivity | reflexivity].
Qed.

Lemma processURLs_one p v q :
  processURLs p [v] q = Parser.processURL p v q.
Proof. cbn. now destruct (Parser.processURL p v q). Qed.

(** The walk of the tree is the sequence of calls of [processURL] for
    the first link attribute of each link element, in document order. *)
Lemma walk_processURLs p n : forall q,
  Parser.walk p n q = processURLs p (firstLinks n) q.
Proof.
  induction n as [ty data attrs children IH] using Node_ind'. intros q.
  cbn [Parser.walk firstLinks]. rewrite processURLs_app.
  assert (Hhead :
    match ty with
    | html.ElementNode =>
        if negb (String.eqb (linkAttr data) "") then
          match List.find (fun a => String.eqb (html.Key a) (linkAttr data))
                          attrs with
          | Some a => Parser.processURL p (html.Val a) q
          | None => Next q
          end
        else Next q
    | _ => Next q
    end
    = processURLs p
        match ty with
        | html.ElementNode =>
            if negb (String.eqb (linkAttr data) "") then
              match List.find (fun a => String.eqb (html.Key a) (linkAttr data))
                              attrs with
              | Some a => [html.Val a]
              | None => []
              end
            else []
        | _ => []
        end q).
  { destruct ty; try reflexivity.
    destruct (negb _); [|reflexivity].
    destruct (List.find _ attrs); [|reflexivity].
    now rewrite processURLs_one. }
  rewrite Hhead. clear Hhead.
  destruct (processURLs p _ q) as [q1|q1|]; [|reflexivity|reflexivity].
  revert q1. induction IH as [|ch chs Hch _ IHchs]; intros q1; [reflexivity|].
  cbn [flat_map]. rewrite processURLs_app, Hch.
  destruct (processURLs p (firstLinks ch) q1); [apply IHchs|reflexivity|reflexivity].
Qed.

(** The steps of [crawlsTo] are the steps of the crawl: a walk, a round
    of the loop and the loop itself take the queue from one point of a
    crawl to a later one. *)
Lemma processURLs_crawlsTo p raws : forall q q',
  processURLs p raws q = Next q' -> crawlsTo p q q'.
Proof.
  induction raws as [|raw raws IH]; intros q q' Hs; cbn [processURLs] in Hs.
  - injection Hs as <-. constructor.
  - destruct (Parser.processURL p raw q) as [q1| |] eqn:Hone; try discriminate.
    eapply crawl_processURL; [exact Hone | now apply IH].
Qed.

Lemma process_crawlsTo m w r q fs q' :
  fst (Mirror.process m w r q fs) = Next q' ->
  crawlsTo (Mirror.parser m) q q'.
Proof.
  unfold Mirror.process.
  destruct (Downloader.downloadResource w r fs) as [fs1 [e|]]; cbn [fst];
    [intros [= <-]; constructor|].
  destruct (Resource.IsHTML r); [|intros [= <-]; constructor].
  destruct (fs1 !! _) as [content|]; [|intros [= <-]; constructor].
  unfold Parser.Parse.
  destruct (html.Parse content) as [doc|]; cbn [fst].
  - rewrite walk_processURLs.
    destruct (processURLs _ _ q) as [q1| |] eqn:Hw.
    + destruct (Config.ConvertLinks _); cbn [fst]; intros [= <-];
        now apply processURLs_crawlsTo in Hw.
    + discriminate.
    + discriminate.
  - destruct (Config.ConvertLinks _); cbn [fst]; intros [= <-]; constructor.
Qed.

Lemma loop_crawlsTo rounds m w : forall q fs q' fs',
  Mirror.loop rounds m w q fs = Mirror.Running q' fs'
  \/ Mirror.loop rounds m w q fs = Mirror.ReceiveBlocks q' fs' ->
  crawlsTo (Mirror.parser m) q q'.
Proof.
  induction rounds as [|rounds IH]; intros q fs q' fs'; cbn [Mirror.loop].
  - intros [[= <- _] | [=]]. constructor.
  - destruct (recv q) as [r q1| |] eqn:Hrecv.
    + destruct (Mirror.process m w r q1 fs) as [[q2|q2|] fs2] eqn:Hp.
      * intros Hl. eapply crawl_recv; [exact Hrecv|].
        eapply crawlsTo_trans; [|exact (IH _ _ _ _ Hl)].
        apply (process_crawlsTo m w r q1 fs). now rewrite Hp.
      * intros [[=] | [=]].
      * intros [[=] | [=]].
    + destruct (Mirror.close q); intros [[=] | [=]].
    + intros [[=] | [= <- _]]. constructor.
Qed.

(** [seeded] is the queue [Start] runs its loop on. *)
Lemma Start_seeded rounds m w q q1 fs :
  seeded m q = Some q1 ->
  Mirror.Start rounds m w q fs = Mirror.loop rounds m w q1 fs.
Proof.
  unfold seeded, Mirror.Start.
  destruct (send _ q); [|discriminate|discriminate]. now intros [= <-].
Qed.

(** X1.  [Parse] makes of a document that parses exactly the calls of
    [processURL] for the first link attribute ([href] of [a] and [link],
    [src] of [img] and [script]) of each element, in document order, each
    on the queue the one before left; a document that does not parse
    leaves the queue as it is. *)
Theorem X1_Parse_is_sequence_of_processURL p content q :
  Parser.Parse p content q =
  match html.Parse content with
  | None => (Next q, false)
  | Some doc => (processURLs p (firstLinks doc) q, true)
  end.
Proof.
  unfold Parser.Parse. destruct (html.Parse content); [|reflexivity].
  now rewrite walk_processURLs.
Qed.

Lemma processURLs_appends_new p raws : forall q q',
  processURLs p raws q = Next q' ->
  exists new,
    Resources q' = (Resources q ++ new)%list
    /\ List.NoDup (map Resource.URL new)
    /\ Forall (fun r => isProcessed q (Resource.URL r) = false
                        /\ isProcessed q' (Resource.URL r) = true) new
    /\ closed q' = closed q.
Proof.
  induction raws as [|raw raws IH]; intros q q' Hs.
  - injection Hs as <-. exists []. rewrite app_nil_r.
    repeat apply conj; [reflexivity | constructor | constructor | reflexivity].
  - cbn [processURLs] in Hs.
    destruct (Parser.processURL p raw q) as [q1| |] eqn:Hone; try discriminate.
    destruct (IH _ _ Hs) as (new1 & Hres & Hnd & Hall & Hcl).
    apply processURL_Next in Hone as [-> | (u & _ & _ & Hfresh & ->)].
    + exists new1. auto.
    + cbn [Resources closed] in *.
      set (q1 := mkQueue _ _ _) in *.
      assert (Hk1 : isProcessed q1 (neturl.ToString u) = true).
      { unfold isProcessed, q1. cbn [Processed].
        now rewrite lookup_insert_eq. }
      assert (Hmono : forall k, isProcessed q k = true -> isProcessed q1 k = true).
      { intros k Hk. unfold isProcessed, q1 in *. cbn [Processed].
        rewrite lookup_insert. destruct (decide _); [reflexivity|assumption]. }
      exists (resourceOf p u :: new1).
      repeat apply conj.
      * rewrite Hres, <- app_assoc. reflexivity.
      * cbn [map]. constructor; [|assumption].
        intros Hin. apply in_map_iff in Hin as (r & Hr & Hin).
        rewrite List.Forall_forall in Hall. apply Hall in Hin as [Hnot _].
        change (Resource.URL (resourceOf p u)) with (neturl.ToString u) in Hr.
        rewrite Hr in Hnot. congruence.
      * constructor.
        -- split; [assumption|].
           eapply processURLs_Processed_mono; [exact Hs|exact Hk1].
        -- rewrite List.Forall_forall in *. intros r Hin.
           destruct (Hall r Hin) as [Hnot Hyes]. split; [|assumption].
           destruct (isProcessed q (Resource.URL r)) eqn:E; [|reflexivity].
           apply Hmono in E. congruence.
      * assumption.
Qed.

(** X2.  A walk of [Parse] that comes back has only appended to the
    queue: what was queued is still there, in its order; the resources
    appended have pairwise different URLs, none of which had been seen
    before the walk, and all of which are seen after it; the channel is
    as open or closed as it was. *)
Theorem X2_walk_appends_unseen_distinct p doc q q' :
  Parser.walk p doc q = Next q' ->
  exists new,
    Resources q' = (Resources q ++ new)%list
    /\ List.NoDup (map Resource.URL new)
    /\ Forall (fun r => isProcessed q (Resource.URL r) = false
                        /\ isProcessed q' (Resource.URL r) = true) new
    /\ closed q' = closed q.
Proof.
  rewrite walk_processURLs. apply processURLs_appends_new.
Qed.

(** X3.  On an open channel [processURL] parks exactly when the buffer
    holds its thousand resources and the candidate passes the filters and
    is new; the URL is then already marked as processed, though it was
    not queued. *)
Theorem X3_processURL_parks_on_full_buffer p rawURL q :
  closed q = false ->
  forall q',
    Parser.processURL p rawURL q = SendBlocks q'
    <-> (capacity <= List.length (Resources q))%nat
        /\ exists u, resolved p rawURL = Some u
             /\ passesFilters p u = true
             /\ isProcessed q (neturl.ToString u) = false
             /\ q' = setProcessed (neturl.ToString u) q.
Proof.
  intros Hopen q'. rewrite processURL_unfold. unfold send.
  cbn [setProcessed closed Resources]. rewrite Hopen.
  destruct (resolved p rawURL) as [u|].
  2:{ split; [discriminate | intros (_ & u & [=] & _)]. }
  destruct (passesFilters p u) eqn:Ef; cbn [andb].
  2:{ split; [discriminate|].
      intros (_ & u' & [= <-] & Hf & _). congruence. }
  destruct (isProcessed q _) eqn:Ep; cbn [negb].
  { split; [discriminate|].
    intros (_ & u' & [= <-] & _ & Hn & _). congruence. }
  destruct (_ <? _)%nat eqn:El.
  - apply Nat.ltb_lt in El. split; [discriminate|]. intros [Hfull _]. lia.
  - apply Nat.ltb_ge in El. split.
    + intros [= <-]. split; [assumption|]. exists u. auto.
    + intros (_ & u' & [= <-] & _ & _ & ->). reflexivity.
Qed.

(** X4.  Every resource [processURL] queues is for a URL of the seed
    host whose path no exclude prefix begins; its local path is the
    output directory, the host and the path of the URL joined, and its
    content type is empty. *)
Theorem X4_processURL_queues_same_host p rawURL q q' r :
  Parser.processURL p rawURL q = Next q' ->
  Resources q' = (Resources q ++ [r])%list ->
  exists u, resolved p rawURL = Some u
    /\ Resource.URL r = neturl.ToString u
    /\ neturl.Host u = neturl.Host (Parser.baseURL p)
    /\ Forall (fun exclude =>
                 gostrings.HasPrefix (neturl.Path u) exclude = false)
              (Config.ExcludePaths (Parser.config p))
    /\ Resource.LocalPath r
       = gopath.Join [Config.OutputDir (Parser.config p);
                      neturl.Host u; neturl.Path u]
    /\ Resource.ContentType r = "".
Proof.
  intros Hs Hr.
  apply processURL_Next in Hs as [-> | (u & Hu & Hf & _ & ->)].
  - apply (f_equal (@List.length _)) in Hr. rewrite length_app in Hr.
    simpl in Hr. lia.
  - cbn [Resources] in Hr. apply app_inv_head in Hr. injection Hr as <-.
    exists u. split; [assumption|]. split; [reflexivity|].
    unfold passesFilters in Hf.
    apply andb_true_iff in Hf as [Hf _]. apply andb_true_iff in Hf as [Hh He].
    split; [now apply String.eqb_eq|].
    split; [|split; reflexivity].
    apply negb_true_iff in He. unfold excluded in He.
    apply List.Forall_forall. intros ex Hin.
    destruct (gostrings.HasPrefix _ ex) eqn:E; [|reflexivity].
    assert (existsb (fun exclude => gostrings.HasPrefix (neturl.Path u) exclude)
                    (Config.ExcludePaths (Parser.config p)) = true)
      by (apply existsb_exists; eauto).
    congruence.
Qed.

(** *** The converter *)

Lemma convertAttr_id c attr basePath a :
  Converter.convertAttr c attr basePath a = a
  <-> (String.eqb (html.Key a) attr = true ->
       Converter.convertPath c (html.Val a) basePath = ""
       \/ Converter.convertPath c (html.Val a) basePath = html.Val a).
Proof.
  unfold Converter.convertAttr. destruct a as [ns k v]. cbn [html.Key html.Val html.Namespace].
  destruct (String.eqb k attr); [|split; [discriminate | reflexivity]].
  destruct (String.eqb (Converter.convertPath c v basePath) "") eqn:E; cbn [negb].
  - apply String.eqb_eq in E. split; [intros _ _; now left | reflexivity].
  - apply String.eqb_neq in E. split.
    + intros [= Hv] _. now right.
    + intros [He | ->]; [reflexivity | contradiction | reflexivity].
Qed.

Lemma map_id_Forall {A} (f : A -> A) l : map f l = l <-> Forall (fun x => f x = x) l.
Proof.
  induction l as [|x l IH]; cbn [map].
  - split; [constructor | reflexivity].
  - split.
    + intros [= Hx Hl]. constructor; [assumption | now apply IH].
    + intros Hall. inversion Hall as [|? ? Hx Hl]; subst.
      rewrite Hx. f_equal. now apply IH.
Qed.

Lemma convertAttrs_id c attr basePath attrs :
  map (Converter.convertAttr c attr basePath) attrs = attrs
  <-> Forall (fun v => Converter.convertPath c v basePath = ""
                       \/ Converter.convertPath c v basePath = v)
             (map html.Val
                  (List.filter (fun a => String.eqb (html.Key a) attr) attrs)).
Proof.
  rewrite map_id_Forall.
  induction attrs as [|a attrs IH]; cbn [List.filter map].
  - split; constructor.
  - destruct (String.eqb (html.Key a) attr) eqn:Ek; cbn [map]; split.
    + intros Hall. inversion Hall as [|? ? Ha Hl]; subst. constructor.
      * exact (proj1 (convertAttr_id c attr basePath a) Ha Ek).
      * now apply IH.
    + intros Hall. inversion Hall as [|? ? Ha Hl]; subst. constructor.
      * apply (proj2 (convertAttr_id c attr basePath a)). intros _. exact Ha.
      * now apply IH.
    + intros Hall. inversion Hall; subst. now apply IH.
    + intros Hall. constructor; [|now apply IH].
      apply (proj2 (convertAttr_id c attr basePath a)). congruence.
Qed.

(** X5.  [convertNode] gives back the very document it was given exactly
    when every link value of the document converts to nothing or to
    itself: a page whose links all go to other hosts, are anchors or are
    empty is not changed in any node. *)
Theorem X5_convertNode_unchanged_iff c basePath n :
  Converter.convertNode c n basePath = n
  <-> Forall (fun v => Converter.convertPath c v basePath = ""
                       \/ Converter.convertPath c v basePath = v)
             (linkValues n).
Proof.
  induction n as [ty data attrs children IH] using Node_ind'.
  cbn [Converter.convertNode linkValues]. rewrite Forall_app.
  assert (Hkids :
    map (fun child => Converter.convertNode c child basePath) children = children
    <-> Forall (fun v => Converter.convertPath c v basePath = ""
                         \/ Converter.convertPath c v basePath = v)
               (flat_map linkValues children)).
  { rewrite map_id_Forall.
    induction IH as [|ch chs Hch _ IHchs]; cbn [flat_map].
    - split; constructor.
    - rewrite Forall_app. split.
      + intros Hall. inversion Hall; subst. split; [now apply Hch | now apply IHchs].
      + intros [H1 H2]. constructor; [now apply Hch | now apply IHchs]. }
  assert (Hattrs :
    match ty with
    | html.ElementNode =>
        if negb (String.eqb (linkAttr data) "")
        then map (Converter.convertAttr c (linkAttr data) basePath) attrs
        else attrs
    | _ => attrs
    end = attrs
    <-> Forall (fun v => Converter.convertPath c v basePath = ""
                         \/ Converter.convertPath c v basePath = v)
               match ty with
               | html.ElementNode =>
                   if negb (String.eqb (linkAttr data) "")
                   then map html.Val
                          (List.filter
                             (fun a => String.eqb (html.Key a) (linkAttr data))
                             attrs)
                   else []
               | _ => []
               end).
  { destruct ty; try (split; [constructor | reflexivity]).
    destruct (negb _); [apply convertAttrs_id | split; [constructor | reflexivity]]. }
  split.
  - intros [= Ha Hc]. split; [now apply Hattrs | now apply Hkids].
  - intros [Ha Hc]. apply Hattrs in Ha. apply Hkids in Hc.
    now rewrite Ha, Hc.
Qed.

Lemma blankAttr_convertAttr c attr basePath a :
  blankAttr attr (Converter.convertAttr c attr basePath a) = blankAttr attr a.
Proof.
  unfold blankAttr. rewrite convertAttr_Key.
  destruct (String.eqb (html.Key a) attr) eqn:Ek; [|].
  - unfold Converter.convertAttr. rewrite Ek. now destruct (negb _).
  - unfold Converter.convertAttr. now rewrite Ek.
Qed.

(** X6.  [convertNode] changes nothing but the values of link
    attributes: with those values wiped out, the converted document and
    the original are the same tree, node for node and attribute for
    attribute. *)
Theorem X6_convertNode_changes_only_link_values c basePath n :
  blank (Converter.convertNode c n basePath) = blank n.
Proof.
  induction n as [ty data attrs children IH] using Node_ind'.
  cbn [Converter.convertNode blank]. f_equal.
  - destruct ty; try reflexivity.
    destruct (negb _); [|reflexivity].
    rewrite map_map. apply map_ext. intros a. apply blankAttr_convertAttr.
  - rewrite map_map.
    induction IH as [|ch chs Hch _ IHchs]; [reflexivity|].
    cbn [map]. now rewrite Hch, IHchs.
Qed.

Lemma convertPath_same_site c c' v basePath :
  neturl.Host (Converter.baseURL c) = neturl.Host (Converter.baseURL c') ->
  Config.OutputDir (Converter.config c) = Config.OutputDir (Converter.config c') ->
  Converter.convertPath c v basePath = Converter.convertPath c' v basePath.
Proof.
  intros Hh Ho. unfold Converter.convertPath. now rewrite Hh, Ho.
Qed.

(** X7.  [convertNode] consults nothing of its converter but the host of
    the base URL and the output directory: two converters that agree on
    these two, whatever their reject lists, exclude prefixes, seed URLs
    and flags, convert every document alike. *)
Theorem X7_convertNode_ignores_filters c c' basePath n :
  neturl.Host (Converter.baseURL c) = neturl.Host (Converter.baseURL c') ->
  Config.OutputDir (Converter.config c) = Config.OutputDir (Converter.config c') ->
  Converter.convertNode c n basePath = Converter.convertNode c' n basePath.
Proof.
  intros Hh Ho.
  induction n as [ty data attrs children IH] using Node_ind'.
  cbn [Converter.convertNode]. f_equal.
  - destruct ty; try reflexivity.
    destruct (negb _); [|reflexivity].
    apply map_ext. intros a. unfold Converter.convertAttr.
    now rewrite (convertPath_same_site c c' _ _ Hh Ho).
  - induction IH as [|ch chs Hch _ IHchs]; [reflexivity|].
    cbn [map]. now rewrite Hch, IHchs.
Qed.

(** X8.  [ConvertLinks] creates no file and removes none, and touches no
    file but the one it is given.  An error on the way to the write (the
    file cannot be read, parsed or rendered) leaves every file as it was;
    a failed write leaves the file as it was, when it could not be opened,
    or holding a beginning of the converted page. *)
Theorem X8_ConvertLinks_rewrites_in_place w c filePath fs fs' e :
  Converter.ConvertLinks w c filePath fs = (fs', e) ->
  (forall path, is_Some (fs' !! path) <-> is_Some (fs !! path))
  /\ (forall path, path <> filePath -> fs' !! path = fs !! path)
  /\ (e <> None -> e <> Some Converter.WriteError -> fs' = fs)
  /\ (e = Some Converter.WriteError ->
      fs' = fs
      \/ exists content doc buf n,
           fs !! filePath = Some content
           /\ html.Parse content = Some doc
           /\ html.Render (Converter.convertNode c doc (filepath.Dir filePath))
              = Some buf
           /\ fs' = <[filePath := String.substring 0 n buf]> fs).
Proof.
  unfold Converter.ConvertLinks.
  destruct (fs !! filePath) as [content|] eqn:Ef;
    [|intros [= <- <-]; repeat apply conj; tauto].
  destruct (html.Parse content) as [doc|] eqn:Ep;
    [|intros [= <- <-]; repeat apply conj; tauto].
  destruct (html.Render _) as [buf|] eqn:Er;
    [|intros [= <- <-]; repeat apply conj; tauto].
  destruct (Create w fs filePath); cbn [negb];
    [|intros [= <- <-]; repeat apply conj; tauto].
  assert (Hsome : forall v path,
             is_Some (<[filePath := v]> fs !! path) <-> is_Some (fs !! path)).
  { intros v path. rewrite lookup_insert.
    destruct (decide (filePath = path)) as [<-|]; [|tauto].
    rewrite Ef. split; eauto. }
  destruct (WriteStops w filePath buf) as [n|]; intros [= <- <-].
  - split; [apply Hsome|].
    split; [intros path Hne; now rewrite lookup_insert_ne|].
    split; [intros _ Hw; now contradiction Hw|].
    intros _. right. exists content, doc, buf, n. auto.
  - split; [apply Hsome|].
    split; [intros path Hne; now rewrite lookup_insert_ne|].
    split; [intros Hnone; now contradiction Hnone | discriminate].
Qed.

(** *** The downloader *)

(** X9.  [downloadResource] removes no file and touches no file but the
    one at the LocalPath of its resource, however it ends. *)
Theorem X9_downloadResource_touches_one_file w r fs fs' e :
  Downloader.downloadResource w r fs = (fs', e) ->
  (forall path, is_Some (fs !! path) -> is_Some (fs' !! path))
  /\ (forall path, path <> Resource.LocalPath r -> fs' !! path = fs !! path).
Proof.
  unfold Downloader.downloadResource.
  destruct (MkdirAll w fs _); cbn [negb]; [|intros [= <- _]; tauto].
  destruct (Get w _) as [resp|]; [|intros [= <- _]; tauto].
  destruct (negb (StatusCode resp =? _)); [intros [= <- _]; tauto|].
  destruct (Create w fs _); cbn [negb]; [|intros [= <- _]; tauto].
  destruct (CopyStops w _ resp); intros [= <- _]; split.
  all: try (intros path Hne; now rewrite lookup_insert_ne).
  all: intros path Hs; rewrite lookup_insert;
    destruct (decide _); [eauto | assumption].
Qed.

(** *** Start *)

Lemma isProcessed_insert q k k' :
  isProcessed q k' = true ->
  default false (<[k := true]> (Processed q) !! k') = true.
Proof.
  unfold isProcessed. intros Hk. rewrite lookup_insert.
  destruct (decide _); [reflexivity | assumption].
Qed.

(** What [processURL] has done to the queue it has got to, parked or
    not: nothing, or marked a new URL and, unless it parked, queued its
    resource. *)
Lemma processURL_sent p rawURL q q' :
  sentQueue (Parser.processURL p rawURL q) = Some q' ->
  q' = q
  \/ exists u,
       isProcessed q (neturl.ToString u) = false
       /\ (q' = mkQueue (Resources q ++ [resourceOf p u]) (closed q)
                        (<[neturl.ToString u := true]> (Processed q))
           \/ q' = setProcessed (neturl.ToString u) q).
Proof.
  rewrite processURL_unfold.
  destruct (resolved p rawURL) as [u|]; [|intros [= <-]; now left].
  destruct (passesFilters p u); [|intros [= <-]; now left].
  destruct (isProcessed q _) eqn:Ep; [intros [= <-]; now left|].
  cbn [negb andb]. unfold send. cbn [closed setProcessed Resources Processed].
  destruct (closed q); [discriminate|].
  destruct (_ <? _)%nat; intros [= <-]; right; exists u; auto.
Qed.

(** The invariant of the queue holds on as [processURL] is called again
    and again, and what is marked stays marked. *)
Lemma processURLs_invariant p raws : forall q q',
  sentQueue (processURLs p raws q) = Some q' ->
  queueInvariant q ->
  queueInvariant q'
  /\ forall k, isProcessed q k = true -> isProcessed q' k = true.
Proof.
  induction raws as [|raw raws IH]; intros q q' Hs Hinv.
  - injection Hs as <-. auto.
  - cbn [processURLs] in Hs.
    assert (Hstep : forall q1,
      sentQueue (Parser.processURL p raw q) = Some q1 ->
      queueInvariant q1
      /\ forall k, isProcessed q k = true -> isProcessed q1 k = true).
    { intros q1 H1.
      apply processURL_sent in H1 as [-> | (u & Hfresh & [-> | ->])]; [auto| |].
      - destruct Hinv as [Hnd Hall]. split; [split|].
        + cbn [Resources]. rewrite map_app. cbn [map].
          apply List.NoDup_app; [assumption | repeat constructor; intros [] |].
          intros x Hin [Hx | []]. apply in_map_iff in Hin as (r & Hr & Hin).
          rewrite List.Forall_forall in Hall. apply Hall in Hin.
          change (Resource.URL (resourceOf p u)) with (neturl.ToString u) in Hx.
          congruence.
        + cbn [Resources]. apply Forall_app. split.
          * eapply List.Forall_impl; [|exact Hall]. intros r Hr.
            now apply isProcessed_insert.
          * repeat constructor. unfold isProcessed. cbn [Processed].
            change (Resource.URL (resourceOf p u)) with (neturl.ToString u).
            now rewrite lookup_insert_eq.
        + intros k Hk. now apply isProcessed_insert.
      - destruct Hinv as [Hnd Hall]. split; [split|].
        + exact Hnd.
        + cbn [setProcessed Resources].
          eapply List.Forall_impl; [|exact Hall]. intros r Hr.
          now apply isProcessed_insert.
        + intros k Hk. now apply isProcessed_insert. }
    destruct (Parser.processURL p raw q) as [q1|q1|] eqn:Hone;
      [|cbn in Hs; injection Hs as <-; now apply Hstep|discriminate].
    destruct (Hstep q1 eq_refl) as [Hinv1 Hmono1].
    destruct (IH _ _ Hs Hinv1) as [Hinv' Hmono'].
    split; [assumption|]. auto.
Qed.

Lemma process_invariant m w r q fs q' :
  sentQueue (fst (Mirror.process m w r q fs)) = Some q' ->
  queueInvariant q ->
  queueInvariant q'
  /\ forall k, isProcessed q k = true -> isProcessed q' k = true.
Proof.
  unfold Mirror.process.
  destruct (Downloader.downloadResource w r fs) as [fs1 [e|]];
    [intros [= <-]; auto|].
  destruct (Resource.IsHTML r); [|intros [= <-]; auto].
  destruct (fs1 !! _) as [content|]; [|intros [= <-]; auto].
  unfold Parser.Parse.
  destruct (html.Parse content) as [doc|]; cbn [fst].
  - rewrite walk_processURLs.
    intros Hs Hinv.
    apply (processURLs_invariant (Mirror.parser m) (firstLinks doc) q q'); [|assumption].
    destruct (processURLs (Mirror.parser m) (firstLinks doc) q) as [q1|q1|];
      [destruct (Config.ConvertLinks _)| |]; exact Hs.
  - destruct (Config.ConvertLinks _); intros [= <-]; auto.
Qed.

Lemma loop_invariant rounds m w : forall q fs q',
  outcomeQueue (Mirror.loop rounds m w q fs) = Some q' ->
  queueInvariant q ->
  queueInvariant q'
  /\ forall k, isProcessed q k = true -> isProcessed q' k = true.
Proof.
  induction rounds as [|rounds IH]; intros q fs q' Ho Hinv; cbn [Mirror.loop] in Ho.
  - injection Ho as <-. auto.
  - unfold recv, Mirror.close in Ho.
    destruct (Resources q) as [|r rest] eqn:Er.
    + destruct (closed q); [discriminate|]. injection Ho as <-. auto.
    + set (q0 := mkQueue rest (closed q) (Processed q)) in *.
      assert (Hinv0 : queueInvariant q0).
      { destruct Hinv as [Hnd Hall]. rewrite Er in Hnd, Hall.
        inversion Hnd; inversion Hall; subst. split; assumption. }
      pose proof (process_invariant m w r q0 fs) as Hp.
      destruct (Mirror.process m w r q0 fs) as [[q1|q1|] fs1]; cbn [fst] in Hp.
      * destruct (Hp q1 eq_refl Hinv0) as [Hinv1 Hmono1].
        destruct (IH _ _ _ Ho Hinv1) as [Hinv' Hmono'].
        split; [assumption|]. intros k Hk. apply Hmono', Hmono1. exact Hk.
      * injection Ho as <-. destruct (Hp q1 eq_refl Hinv0) as [Hinv1 Hmono1].
        split; [assumption|]. intros k Hk. apply Hmono1. exact Hk.
      * discriminate.
Qed.

(** X10.  At whatever point a crawl started on a fresh queue is looked
    at, the resources waiting in the channel have pairwise different URLs,
    the URL of each is marked as processed, and so is the seed URL: no
    URL that was ever queued, and not the seed, can be queued again. *)
Theorem X10_Start_keeps_queue_invariant rounds m w fs q' :
  outcomeQueue (Mirror.Start rounds m w NewQueue fs) = Some q' ->
  queueInvariant q'
  /\ isProcessed q' (Config.URL (Mirror.config m)) = true.
Proof.
  unfold Mirror.Start.
  change (send (Mirror.initialResource m) NewQueue)
    with (Next (mkQueue [Mirror.initialResource m] false ∅)).
  cbv zeta. unfold setProcessed. cbn [Resources closed Processed].
  set (q1 := mkQueue _ _ _). intros Ho.
  assert (Hseed : isProcessed q1 (Config.URL (Mirror.config m)) = true).
  { unfold isProcessed, q1. cbn [Processed]. now rewrite lookup_insert_eq. }
  assert (Hinv1 : queueInvariant q1).
  { split; cbn [q1 Resources map].
    - repeat constructor. intros [].
    - repeat constructor. exact Hseed. }
  destruct (loop_invariant _ _ _ _ _ _ Ho Hinv1) as [Hinv' Hmono].
  split; [assumption | now apply Hmono].
Qed.

Lemma downloadResource_keeps_files w r fs path :
  is_Some (fs !! path) ->
  is_Some (fst (Downloader.downloadResource w r fs) !! path).
Proof.
  intros Hs. unfold Downloader.downloadResource.
  destruct (MkdirAll w fs _); cbn [negb]; [|assumption].
  destruct (Get w _) as [resp|]; [|assumption].
  destruct (negb (StatusCode resp =? _)); [assumption|].
  destruct (Create w fs _); cbn [negb]; [|assumption].
  destruct (CopyStops w _ resp); cbn [fst]; rewrite lookup_insert;
    (destruct (decide _); [eauto | assumption]).
Qed.

Lemma ConvertLinks_keeps_files w c filePath fs path :
  is_Some (fs !! path) ->
  is_Some (fst (Converter.ConvertLinks w c filePath fs) !! path).
Proof.
  intros Hs. unfold Converter.ConvertLinks.
  destruct (fs !! filePath) as [content|]; [|assumption].
  destruct (html.Parse content) as [doc|]; [|assumption].
  destruct (html.Render _) as [buf|]; [|assumption].
  destruct (Create w fs filePath); cbn [negb]; [|assumption].
  destruct (WriteStops w filePath buf); cbn [fst]; rewrite lookup_insert;
    destruct (decide _); eauto.
Qed.

Lemma process_keeps_files m w r q fs path :
  is_Some (fs !! path) ->
  is_Some (snd (Mirror.process m w r q fs) !! path).
Proof.
  intros Hs. unfold Mirror.process.
  pose proof (downloadResource_keeps_files w r fs path Hs) as Hd.
  destruct (Downloader.downloadResource w r fs) as [fs1 [e|]]; cbn [fst] in Hd;
    [assumption|].
  destruct (Resource.IsHTML r); [|assumption].
  destruct (fs1 !! Resource.LocalPath r) as [content|]; [|assumption].
  destruct (fst (Parser.Parse _ content q)); try assumption.
  destruct (Config.ConvertLinks _); [|assumption].
  cbn [snd]. now apply ConvertLinks_keeps_files.
Qed.

Lemma loop_keeps_files rounds m w : forall q fs fs' path,
  outcomeFiles (Mirror.loop rounds m w q fs) = Some fs' ->
  is_Some (fs !! path) -> is_Some (fs' !! path).
Proof.
  induction rounds as [|rounds IH]; intros q fs fs' path Ho Hs;
    cbn [Mirror.loop] in Ho.
  - now injection Ho as <-.
  - destruct (recv q) as [r q0| |].
    + pose proof (process_keeps_files m w r q0 fs path Hs) as Hp.
      destruct (Mirror.process m w r q0 fs) as [[q1|q1|] fs1]; cbn [snd] in Hp.
      * eapply IH; eassumption.
      * now injection Ho as <-.
      * discriminate.
    + destruct (Mirror.close q); [now injection Ho as <-|discriminate].
    + now injection Ho as <-.
Qed.

(** X11.  A crawl removes no file: every path that holds a file when
    [Start] is called holds a file at whatever point the crawl is looked
    at. *)
Theorem X11_Start_removes_no_file rounds m w q fs fs' path :
  outcomeFiles (Mirror.Start rounds m w q fs) = Some fs' ->
  is_Some (fs !! path) -> is_Some (fs' !! path).
Proof.
  unfold Mirror.Start.
  destruct (send _ q) as [q1|q1|]; cbn [outcomeFiles].
  - apply loop_keeps_files.
  - now intros [= <-].
  - discriminate.
Qed.

(** *** New and the other processURL *)

(** X13.  For a mirror that [New] has made, [Mirror.processURL]
    normalizes a raw URL exactly as the parser does on its way to the
    queue: it returns the URL the parser resolves, and an error for
    exactly the values the parser drops before its filters, never for the
    base URL. *)
Theorem X13_Mirror_processURL_agrees_with_parser config m q rawURL :
  Mirror.New config = Some (m, q) ->
  Mirror.processURL m rawURL =
  match resolved (Mirror.parser m) rawURL with
  | Some u => inl u
  | None =>
      inr (if String.eqb rawURL "" || gostrings.HasPrefix rawURL "#"
           then Mirror.InvalidURL else Mirror.BadURL)
  end.
Proof.
  unfold Mirror.New, Parser.NewParser, Converter.NewConverter.
  destruct (neturl.Parse (Config.URL config)) as [baseURL|] eqn:Ep;
    [|discriminate].
  destruct config as [url rej exc conv out]. cbn [Config.URL Config.OutputDir
    Config.RejectTypes Config.ExcludePaths Config.ConvertLinks] in *.
  assert (Hm : forall config',
    Config.URL config' = url ->
    Some (Mirror.mk config' (Parser.mk baseURL config')
                    (Converter.mk baseURL config'), NewQueue) = Some (m, q) ->
    Mirror.processURL m rawURL =
    match resolved (Mirror.parser m) rawURL with
    | Some u => inl u
    | None =>
        inr (if String.eqb rawURL "" || gostrings.HasPrefix rawURL "#"
             then Mirror.InvalidURL else Mirror.BadURL)
    end).
  { intros config' Hurl [= <- _].
    unfold Mirror.processURL, resolved.
    cbn [Mirror.config Mirror.parser Parser.baseURL]. rewrite Hurl, Ep.
    destruct (_ || _); [reflexivity|].
    destruct (neturl.Parse rawURL); reflexivity. }
  destruct (String.eqb out ""); cbn [Config.URL]; rewrite Ep;
    apply Hm; reflexivity.
Qed.

(** *** Reject entries *)

Lemma Ext_scan_clean rp : forall acc,
  existsb (Ascii.eqb ".") acc = false ->
  existsb (Ascii.eqb "/") acc = false ->
  gopath.Ext_scan rp acc = []
  \/ exists l, gopath.Ext_scan rp acc = gopath.dot :: l
       /\ existsb (Ascii.eqb ".") l = false
       /\ existsb (Ascii.eqb "/") l = false.
Proof.
  induction rp as [|c r IH]; intros acc Hd Hs; cbn [gopath.Ext_scan];
    [now left|].
  destruct (Ascii.eqb c gopath.slash) eqn:Es; [now left|].
  destruct (Ascii.eqb c gopath.dot) eqn:Ed.
  - apply Ascii.eqb_eq in Ed as ->. right. eauto.
  - apply IH; cbn [existsb].
    + rewrite Hd. unfold gopath.dot in Ed. rewrite Ascii.eqb_sym in Ed.
      now rewrite Ed.
    + rewrite Hs. unfold gopath.slash in Es. rewrite Ascii.eqb_sym in Es.
      now rewrite Es.
Qed.

(** The extension without its dot has no dot and no slash in it. *)
Lemma Ext_no_dot_slash path :
  gopath.Ext path = ""
  \/ exists t, gopath.Ext path = String gopath.dot t
       /\ neturl.contains "." t = false /\ neturl.contains "/" t = false.
Proof.
  unfold gopath.Ext.
  destruct (Ext_scan_clean (rev (list_ascii_of_string path)) [] eq_refl eq_refl)
    as [-> | (l & -> & Hd & Hs)]; [now left|right].
  exists (string_of_list_ascii l). split; [reflexivity|].
  unfold neturl.contains, neturl.one_of.
  now rewrite list_ascii_of_string_of_list_ascii.
Qed.

Lemma existsb_filter {A} (f g : A -> bool) l :
  (forall x, f x = true -> g x = true) ->
  existsb f (List.filter g l) = existsb f l.
Proof.
  intros Hfg. induction l as [|x l IH]; [reflexivity|].
  cbn [List.filter existsb].
  destruct (g x) eqn:Eg; cbn [existsb]; [now rewrite IH|].
  destruct (f x) eqn:Ef; [|exact IH].
  apply Hfg in Ef. congruence.
Qed.

Section RejectEntries.

(** Two facts of [strings.ToLower] that the tables of package [unicode]
    decide, and Go's have: no upper-case letter of ASCII is left in a
    lower-cased string, and lower-casing brings no dot and no slash into a
    string. *)
Hypothesis ToLower_lower :
  forall s, gostrings.lowerASCII (gostrings.ToLower s) = gostrings.ToLower s.
Hypothesis ToLower_clean :
  forall s, neturl.contains "." s = false -> neturl.contains "/" s = false ->
    neturl.contains "." (gostrings.ToLower s) = false
    /\ neturl.contains "/" (gostrings.ToLower s) = false.

(** What [processURL] compares with the reject entries is always an
    effective entry itself. *)
Lemma removeDot_lowerExt_effective u :
  lowerExt u <> "" -> effectiveEntry (Parser.removeDot (lowerExt u)) = true.
Proof.
  unfold lowerExt, effectiveEntry.
  destruct (Ext_no_dot_slash (neturl.Path u)) as [-> | (t & -> & Hd & Hs)];
    [intros []; reflexivity|]. intros _.
  unfold gopath.dot. rewrite ToLower_dot, removeDot_String.
  rewrite ToLower_lower, String.eqb_refl.
  destruct (ToLower_clean t Hd Hs) as [-> ->]. reflexivity.
Qed.

(** X14.  A reject entry with an upper-case letter of ASCII, a dot or a
    slash in it rejects nothing: with all such entries struck from the
    reject list, every call of [processURL] does exactly what it does with
    the list as given.  This holds for every lower-casing that leaves no
    upper-case letter of ASCII and brings no dot and no slash into a
    string, as Go's does. *)
Theorem X14_only_effective_reject_entries_count p rawURL q :
  Parser.processURL
    (withRejectTypes
       (List.filter effectiveEntry (Config.RejectTypes (Parser.config p))) p)
    rawURL q
  = Parser.processURL p rawURL q.
Proof.
  rewrite !processURL_unfold.
  change (resolved (withRejectTypes _ p) rawURL) with (resolved p rawURL).
  destruct (resolved p rawURL) as [u|]; [|reflexivity].
  change (resourceOf (withRejectTypes _ p) u) with (resourceOf p u).
  replace (passesFilters (withRejectTypes _ p) u) with (passesFilters p u);
    [reflexivity|].
  unfold passesFilters.
  change (sameHost (withRejectTypes _ p) u) with (sameHost p u).
  change (excluded (withRejectTypes _ p) u) with (excluded p u).
  f_equal. f_equal. unfold rejected.
  cbn [withRejectTypes Parser.config Config.RejectTypes].
  destruct (String.eqb (lowerExt u) "") eqn:Ee; [reflexivity|].
  cbn [negb andb]. symmetry. apply existsb_filter.
  intros e He. apply String.eqb_eq in He as <-.
  apply removeDot_lowerExt_effective. now apply String.eqb_neq.
Qed.

End RejectEntries.

(** *** The converter and the parser together *)

Lemma split_nonempty sep s : gopath.split sep s <> [].
Proof.
  destruct s as [|c r]; cbn [gopath.split]; [discriminate|].
  destruct (Ascii.eqb c sep); [discriminate|].
  destruct (gopath.split sep r); discriminate.
Qed.

Lemma split_app_sep sep a : forall b,
  gopath.split sep (a ++ String sep b)
  = (gopath.split sep a ++ gopath.split sep b)%list.
Proof.
  induction a as [|c a IH]; intros b.
  - simpl. now rewrite Ascii.eqb_refl.
  - simpl. rewrite IH.
    destruct (Ascii.eqb c sep); [reflexivity|].
    pose proof (split_nonempty sep a) as Hne.
    destruct (gopath.split sep a) as [|e es]; [contradiction|reflexivity].
Qed.

Lemma split_join_flat es :
  es <> [] ->
  gopath.split gopath.slash (gopath.join "/" es)
  = flat_map (gopath.split gopath.slash) es.
Proof.
  induction es as [|e es IH]; [contradiction|]. intros _.
  destruct es as [|e' es].
  - cbn. now rewrite app_nil_r.
  - change (gopath.join "/" (e :: e' :: es))
      with (e ++ String gopath.slash (gopath.join "/" (e' :: es))).
    rewrite split_app_sep, IH by discriminate. reflexivity.
Qed.

Lemma clean_fold_empty rooted st :
  fold_left (gopath.clean_step rooted) (gopath.split gopath.slash "") st = st.
Proof. destruct st. reflexivity. Qed.

Lemma clean_fold_filter rooted es : forall st,
  fold_left (gopath.clean_step rooted)
            (flat_map (gopath.split gopath.slash) es) st
  = fold_left (gopath.clean_step rooted)
              (flat_map (gopath.split gopath.slash)
                        (List.filter (fun e => negb (String.eqb e "")) es)) st.
Proof.
  induction es as [|e es IH]; intros st; [reflexivity|].
  cbn [flat_map List.filter]. rewrite fold_left_app.
  destruct (String.eqb e "") eqn:Ee; cbn [negb].
  - apply String.eqb_eq in Ee as ->. rewrite clean_fold_empty. apply IH.
  - cbn [flat_map]. rewrite fold_left_app. apply IH.
Qed.

Lemma join_first_nonempty e es :
  e <> "" ->
  exists c r, gopath.join "/" (e :: es) = String c r
    /\ exists r', e = String c r'.
Proof.
  intros He. destruct e as [|c r']; [contradiction|].
  destruct es as [|e' es]; simpl; eauto.
Qed.

Lemma HasPrefix_slash_first c x y :
  gostrings.HasPrefix (String c x) "/" = gostrings.HasPrefix (String c y) "/".
Proof.
  unfold gostrings.HasPrefix.
  change (String.prefix "/" (String c x))
    with (if ascii_dec "/" c then String.prefix "" x else false).
  change (String.prefix "/" (String c y))
    with (if ascii_dec "/" c then String.prefix "" y else false).
  destruct (ascii_dec "/" c); [|reflexivity]. now destruct x, y.
Qed.

(** [filepath.Join] and [path.Join] give the same path. *)
Lemma Join_agree l : filepath.Join l = gopath.Join l.
Proof.
  unfold filepath.Join, gopath.Join.
  induction l as [|e l IH]; [reflexivity|].
  cbn [filepath.join_from List.filter].
  destruct (String.eqb e "") eqn:Ee; cbn [negb]; [exact IH|].
  apply String.eqb_neq in Ee. clear IH.
  set (l' := List.filter (fun e => negb (String.eqb e "")) l).
  destruct (join_first_nonempty e l Ee) as (c & r & Hj & r' & He).
  destruct (join_first_nonempty e l' Ee) as (c2 & r2 & Hj2 & r2' & He2).
  assert (c2 = c) by congruence. subst c2.
  unfold gopath.Clean.
  rewrite (split_join_flat (e :: l)), (split_join_flat (e :: l')) by discriminate.
  rewrite Hj, Hj2.
  change (String.eqb (String c r) "") with false.
  change (String.eqb (String c r2) "") with false. cbv iota.
  rewrite (HasPrefix_slash_first c r2 r).
  cbn [flat_map]. rewrite !fold_left_app.
  unfold l'. now rewrite <- clean_fold_filter.
Qed.

(** X15.  For an absolute link of the seed host that the parser queues,
    the converter writes into the page exactly the LocalPath the resource
    is to be saved at, whatever file is being rewritten: parser and
    converter, given one configuration and one base host, name the same
    file. *)
Theorem X15_converted_absolute_link_is_LocalPath p c rawURL u basePath q q' r :
  Parser.config p = Converter.config c ->
  neturl.Host (Parser.baseURL p) = neturl.Host (Converter.baseURL c) ->
  neturl.Parse rawURL = Some u ->
  neturl.IsAbs u = true ->
  Parser.processURL p rawURL q = Next q' ->
  Resources q' = (Resources q ++ [r])%list ->
  Converter.convertPath c rawURL basePath = Resource.LocalPath r.
Proof.
  intros Hcfg Hhost Hparse Habs Hs Hr.
  apply processURL_Next in Hs as [-> | (u' & Hu' & Hf & _ & ->)].
  - apply (f_equal (@List.length _)) in Hr. rewrite length_app in Hr.
    simpl in Hr. lia.
  - cbn [Resources] in Hr. apply app_inv_head in Hr. injection Hr as <-.
    unfold resolved in Hu'. unfold Converter.convertPath.
    destruct (_ || _); [discriminate|].
    rewrite Hparse in *. rewrite Habs in *. cbn [negb] in Hu'.
    injection Hu' as <-.
    unfold passesFilters, sameHost in Hf.
    apply andb_true_iff in Hf as [Hf _]. apply andb_true_iff in Hf as [Hh _].
    rewrite <- Hhost, Hh. cbn [negb].
    rewrite Join_agree, <- Hcfg. reflexivity.
Qed.

End MoreProperties.

(** ** The command line: [main] and [downloadFile] *)

Lemma join_split sep s :
  gopath.join (String sep "") (gopath.split sep s) = s.
Proof.
  induction s as [|c s IH]; [reflexivity|].
  pose proof (split_nonempty sep s) as Hne.
  cbn [gopath.split].
  destruct (gopath.split sep s) as [|e es]; [contradiction|].
  destruct (Ascii.eqb c sep) eqn:Ec.
  - apply Ascii.eqb_eq in Ec as ->.
    change (String sep (gopath.join (String sep "") (e :: es)) = String sep s).
    now rewrite IH.
  - destruct es as [|e' es].
    + cbn [gopath.join] in *. now rewrite IH.
    + change (String c (gopath.join (String sep "") (e :: e' :: es))
              = String c s).
      now rewrite IH.
Qed.

Lemma split_no_sep sep s :
  Forall (fun e => neturl.contains sep e = false) (gopath.split sep s).
Proof.
  induction s as [|c s IH]; [repeat constructor|].
  pose proof (split_nonempty sep s) as Hne.
  simpl. destruct (Ascii.eqb c sep) eqn:Ec; [now constructor|].
  destruct (gopath.split sep s) as [|e es]; [contradiction|].
  inversion IH as [|? ? He Hes]; subst. constructor; [|assumption].
  unfold neturl.contains, neturl.one_of in *. simpl.
  rewrite Ascii.eqb_sym, Ec. exact He.
Qed.

Lemma splitFlag_join flag : gopath.join "," (wget.splitFlag flag) = flag.
Proof.
  unfold wget.splitFlag. destruct (String.eqb flag "") eqn:E; cbn [negb].
  - now apply String.eqb_eq in E as ->.
  - apply join_split.
Qed.

Lemma splitFlag_nil flag : wget.splitFlag flag = [] <-> flag = "".
Proof.
  unfold wget.splitFlag. destruct (String.eqb flag "") eqn:E; cbn [negb].
  - apply String.eqb_eq in E. tauto.
  - apply String.eqb_neq in E. pose proof (split_nonempty "," flag). tauto.
Qed.

Lemma splitFlag_no_comma flag :
  Forall (fun e => neturl.contains "," e = false) (wget.splitFlag flag).
Proof.
  unfold wget.splitFlag. destruct (negb _); [apply split_no_sep|constructor].
Qed.

(** X16.  The configuration [main] hands to the mirror loses nothing of
    the flags: the seed, the output directory and the conversion flag are
    passed on as given, and the reject and exclude lists are the flags cut
    at their commas and at nothing else (joined with commas they give the
    flag back, so no entry is trimmed or dropped, and no entry has a comma
    in it); a list is empty exactly when its flag is. *)
Theorem X16_mirrorConfig_keeps_flags url config :
  let mc := wget.mirrorConfig url config in
  Config.URL mc = url
  /\ Config.OutputDir mc = wget.outputDir config
  /\ Config.ConvertLinks mc = wget.convertLinks config
  /\ gopath.join "," (Config.RejectTypes mc) = wget.reject config
  /\ gopath.join "," (Config.ExcludePaths mc) = wget.exclude config
  /\ Forall (fun e => neturl.contains "," e = false)
            (Config.RejectTypes mc ++ Config.ExcludePaths mc)
  /\ (Config.RejectTypes mc = [] <-> wget.reject config = "")
  /\ (Config.ExcludePaths mc = [] <-> wget.exclude config = "").
Proof.
  cbv zeta. unfold wget.mirrorConfig.
  cbn [Config.URL Config.OutputDir Config.ConvertLinks Config.RejectTypes
       Config.ExcludePaths].
  do 3 (split; [reflexivity|]).
  split; [apply splitFlag_join|]. split; [apply splitFlag_join|].
  split; [apply Forall_app; split; apply splitFlag_no_comma|].
  split; apply splitFlag_nil.
Qed.

(** X17.  [downloadFile] touches no file but the one it saves under;
    unless the copy itself fails, an error leaves every file as it was;
    without an error the file holds the whole body of the response. *)
Theorem X17_downloadFile_touches_one_file w url config fs fs' e :
  wget.downloadFile w url config fs = (fs', e) ->
  (forall path, path <> wget.fileName url config -> fs' !! path = fs !! path)
  /\ (e <> None -> e <> Some wget.CopyError -> fs' = fs)
  /\ (e = None ->
      exists resp, Get w url = Some resp
        /\ fs' = <[wget.fileName url config := Body resp]> fs).
Proof.
  unfold wget.downloadFile.
  destruct (Get w url) as [resp|];
    [|intros [= <- <-]; repeat apply conj; [tauto|tauto|discriminate]].
  destruct (negb (StatusCode resp =? 200));
    [intros [= <- <-]; repeat apply conj; [tauto|tauto|discriminate]|].
  destruct (_ && _);
    [intros [= <- <-]; repeat apply conj; [tauto|tauto|discriminate]|].
  destruct (negb (Create w fs _));
    [intros [= <- <-]; repeat apply conj; [tauto|tauto|discriminate]|].
  destruct (CopyStops w _ resp); intros [= <- <-]; repeat apply conj.
  - intros path Hp. now rewrite lookup_insert_ne.
  - congruence.
  - discriminate.
  - intros path Hp. now rewrite lookup_insert_ne.
  - congruence.
  - intros _. exists resp. split; reflexivity.
Qed.

(** X18.  [downloadFile] returns without an error exactly when the
    request is answered, with the status 200, the output directory (when
    one is given) and the file can be created, and the copy runs
    through. *)
Theorem X18_downloadFile_succeeds_iff w url config fs :
  snd (wget.downloadFile w url config fs) = None
  <-> exists resp,
        Get w url = Some resp
        /\ StatusCode resp = 200
        /\ (wget.outputDir config = ""
            \/ MkdirAll w fs (wget.outputDir config) = true)
        /\ Create w fs (wget.fileName url config) = true
        /\ CopyStops w (wget.fileName url config) resp = None.
Proof.
  unfold wget.downloadFile.
  destruct (Get w url) as [resp|]; cbn [snd].
  2:{ split; [discriminate | intros (? & [=] & _)]. }
  destruct (StatusCode resp =? 200) eqn:Es; cbn [negb snd].
  2:{ split; [discriminate|]. intros (r & [= <-] & Hs & _).
      apply Z.eqb_neq in Es. contradiction. }
  apply Z.eqb_eq in Es.
  destruct (String.eqb (wget.outputDir config) "") eqn:Ed; cbn [negb andb].
  - apply String.eqb_eq in Ed.
    destruct (Create w fs _) eqn:Ec; cbn [negb snd].
    2:{ split; [discriminate|]. intros (r & [= <-] & _ & _ & Hc & _).
        congruence. }
    destruct (CopyStops w _ resp) eqn:Ek; cbn [snd].
    + split; [discriminate|]. intros (r & [= <-] & _ & _ & _ & Hk).
      congruence.
    + split; [|reflexivity]. intros _. exists resp. auto 10.
  - apply String.eqb_neq in Ed.
    destruct (MkdirAll w fs _) eqn:Em; cbn [negb snd].
    2:{ split; [discriminate|]. intros (r & [= <-] & _ & [Hd|Hm] & _);
        [contradiction|congruence]. }
    destruct (Create w fs _) eqn:Ec; cbn [negb snd].
    2:{ split; [discriminate|]. intros (r & [= <-] & _ & _ & Hc & _).
        congruence. }
    destruct (CopyStops w _ resp) eqn:Ek; cbn [snd].
    + split; [discriminate|]. intros (r & [= <-] & _ & _ & _ & Hk).
      congruence.
    + split; [|reflexivity]. intros _. exists resp. auto 10.
Qed.

Lemma existsb_rev {A} (f : A -> bool) l : existsb f (rev l) = existsb f l.
Proof.
  induction l as [|x l IH]; [reflexivity|].
  simpl. rewrite existsb_app, IH. simpl.
  rewrite orb_false_r. apply orb_comm.
Qed.

Lemma upto_slash_no_slash rp :
  existsb (Ascii.eqb "/") (gopath.upto_slash rp) = false.
Proof.
  induction rp as [|c r IH]; [reflexivity|].
  cbn [gopath.upto_slash]. destruct (Ascii.eqb c gopath.slash) eqn:Ec;
    [reflexivity|].
  cbn [existsb]. rewrite IH. unfold gopath.slash in Ec.
  rewrite Ascii.eqb_sym, Ec. reflexivity.
Qed.

(** The last element of a path has no slash in it, unless it is the
    root. *)
Lemma Base_no_slash p :
  gopath.Base p <> ""
  /\ (gopath.Base p = "/" \/ neturl.contains "/" (gopath.Base p) = false).
Proof.
  unfold gopath.Base. destruct (String.eqb p "");
    [split; [discriminate | now right]|].
  pose proof (upto_slash_no_slash
                (gopath.strip_slashes (rev (list_ascii_of_string p)))) as Hn.
  rewrite <- existsb_rev in Hn.
  destruct (rev (gopath.upto_slash _)) as [|a l];
    [split; [discriminate | now left]|].
  split; [discriminate|]. right.
  unfold neturl.contains, neturl.one_of.
  now rewrite list_ascii_of_string_of_list_ascii.
Qed.

(** X19.  Without [-O] and [-P] the name [downloadFile] saves under is
    never empty and, unless it is the root [/], has no slash in it: the
    file goes into the current directory, whatever the URL. *)
Theorem X19_default_name_has_no_directory url config :
  wget.outputFile config = "" ->
  wget.outputDir config = "" ->
  wget.fileName url config <> ""
  /\ (wget.fileName url config = "/"
      \/ neturl.contains "/" (wget.fileName url config) = false).
Proof.
  intros Hf Hd. unfold wget.fileName. rewrite Hf, Hd.
  cbn [String.eqb negb]. apply Base_no_slash.
Qed.

(** ** The further properties at work on the small site *)

Lemma X2_witness :
  Parser.walk site.p linkA NewQueue = Next site.q1
  /\ exists new,
       Resources site.q1 = (Resources NewQueue ++ new)%list
       /\ List.NoDup (map Resource.URL new)
       /\ Forall (fun r => isProcessed NewQueue (Resource.URL r) = false
                           /\ isProcessed site.q1 (Resource.URL r) = true) new
       /\ closed site.q1 = closed NewQueue.
Proof.
  assert (H1 : Parser.walk site.p linkA NewQueue = Next site.q1)
    by (vm_compute; reflexivity).
  exact (conj H1 (X2_walk_appends_unseen_distinct site.p linkA NewQueue
                    site.q1 H1)).
Defined.

Lemma X3_witness :
  closed fullQueue = false
  /\ forall q',
       Parser.processURL site.p "/a.html" fullQueue = SendBlocks q'
       <-> (capacity <= List.length (Resources fullQueue))%nat
           /\ exists u, resolved site.p "/a.html" = Some u
                /\ passesFilters site.p u = true
                /\ isProcessed fullQueue (neturl.ToString u) = false
                /\ q' = setProcessed (neturl.ToString u) fullQueue.
Proof.
  assert (H1 : closed fullQueue = false) by reflexivity.
  exact (conj H1 (X3_processURL_parks_on_full_buffer site.p "/a.html"
                    fullQueue H1)).
Defined.

Lemma X4_witness :
  let r := Resource.mk "http://example.test/a.html" "out/example.test/a.html"
                       "" true in
  Parser.processURL site.p "/a.html" NewQueue = Next site.q1
  /\ Resources site.q1 = (Resources NewQueue ++ [r])%list
  /\ exists u, resolved site.p "/a.html" = Some u
       /\ Resource.URL r = neturl.ToString u
       /\ neturl.Host u = neturl.Host (Parser.baseURL site.p)
       /\ Forall (fun exclude =>
                    gostrings.HasPrefix (neturl.Path u) exclude = false)
                 (Config.ExcludePaths (Parser.config site.p))
       /\ Resource.LocalPath r
          = gopath.Join [Config.OutputDir (Parser.config site.p);
                         neturl.Host u; neturl.Path u]
       /\ Resource.ContentType r = "".
Proof.
  intros r.
  assert (H1 : Parser.processURL site.p "/a.html" NewQueue = Next site.q1)
    by (vm_compute; reflexivity).
  assert (H2 : Resources site.q1 = (Resources NewQueue ++ [r])%list)
    by reflexivity.
  exact (conj H1 (conj H2
           (X4_processURL_queues_same_host site.p "/a.html" NewQueue site.q1
              r H1 H2))).
Defined.

Lemma X7_witness :
  neturl.Host (Converter.baseURL site.c)
  = neturl.Host (Converter.baseURL cOther)
  /\ Config.OutputDir (Converter.config site.c)
     = Config.OutputDir (Converter.config cOther)
  /\ Converter.convertNode site.c site.index "out"
     = Converter.convertNode cOther site.index "out".
Proof.
  assert (H1 : neturl.Host (Converter.baseURL site.c)
               = neturl.Host (Converter.baseURL cOther)) by reflexivity.
  assert (H2 : Config.OutputDir (Converter.config site.c)
               = Config.OutputDir (Converter.config cOther)) by reflexivity.
  exact (conj H1 (conj H2
           (X7_convertNode_ignores_filters site.c cOther "out" site.index
              H1 H2))).
Defined.

Lemma X8_witness :
  let fs : FS := <["out/index.html" := site.render site.index]> notes in
  let fs' : FS := <["out/index.html" := "<html>"]> notes in
  Converter.ConvertLinks (H := site.lib site.pages) site.worldFull site.c
                         "out/index.html" fs
  = (fs', Some Converter.WriteError)
  /\ (forall path, is_Some (fs' !! path) <-> is_Some (fs !! path))
  /\ (forall path, path <> "out/index.html" -> fs' !! path = fs !! path)
  /\ (Some Converter.WriteError <> None ->
      Some Converter.WriteError <> Some Converter.WriteError -> fs' = fs)
  /\ (Some Converter.WriteError = Some Converter.WriteError ->
      fs' = fs
      \/ exists content doc buf n,
           fs !! "out/index.html" = Some content
           /\ html.Parse (Lib := site.lib site.pages) content = Some doc
           /\ html.Render (Lib := site.lib site.pages)
                (Converter.convertNode site.c doc
                   (filepath.Dir "out/index.html"))
              = Some buf
           /\ fs' = <["out/index.html" := String.substring 0 n buf]> fs).
Proof.
  intros fs fs'.
  assert (H1 : Converter.ConvertLinks (H := site.lib site.pages)
                 site.worldFull site.c "out/index.html" fs
               = (fs', Some Converter.WriteError))
    by (vm_compute; reflexivity).
  exact (conj H1 (X8_ConvertLinks_rewrites_in_place
                    (H := site.lib site.pages) site.worldFull site.c
                    "out/index.html" fs fs' _ H1)).
Defined.

Lemma X9_witness :
  let fs' : FS := <["out/index.html" := "<html>"]> notes in
  Downloader.downloadResource site.worldBroken (Mirror.initialResource site.m)
                              notes
  = (fs', Some Downloader.CopyError)
  /\ (forall path, is_Some (notes !! path) -> is_Some (fs' !! path))
  /\ (forall path, path <> Resource.LocalPath (Mirror.initialResource site.m) ->
                   fs' !! path = notes !! path).
Proof.
  intros fs'.
  assert (H1 : Downloader.downloadResource site.worldBroken
                 (Mirror.initialResource site.m) notes
               = (fs', Some Downloader.CopyError))
    by (vm_compute; reflexivity).
  exact (conj H1 (X9_downloadResource_touches_one_file site.worldBroken
                    (Mirror.initialResource site.m) notes fs' _ H1)).
Defined.

Lemma X10_witness :
  outcomeQueue (Mirror.Start (H := site.lib site.pages) 5 site.m site.world
                             NewQueue notes)
  = Some crawledQueue
  /\ queueInvariant crawledQueue
  /\ isProcessed crawledQueue (Config.URL (Mirror.config site.m)) = true.
Proof.
  assert (H1 : outcomeQueue
                 (Mirror.Start (H := site.lib site.pages) 5 site.m site.world
                               NewQueue notes)
               = Some crawledQueue)
    by (vm_compute; reflexivity).
  exact (conj H1 (X10_Start_keeps_queue_invariant
                    (H := site.lib site.pages) 5 site.m site.world notes
                    crawledQueue H1)).
Defined.

Lemma X11_witness :
  outcomeFiles (Mirror.Start (H := site.lib site.pages) 5 site.m site.world
                             NewQueue notes)
  = Some crawledFiles
  /\ is_Some (notes !! "notes.txt")
  /\ is_Some (crawledFiles !! "notes.txt").
Proof.
  assert (H1 : outcomeFiles
                 (Mirror.Start (H := site.lib site.pages) 5 site.m site.world
                               NewQueue notes)
               = Some crawledFiles)
    by (vm_compute; reflexivity).
  assert (H2 : is_Some (notes !! "notes.txt"))
    by (exists "keep"; vm_compute; reflexivity).
  exact (conj H1 (conj H2
           (X11_Start_removes_no_file (H := site.lib site.pages) 5 site.m
              site.world NewQueue notes crawledFiles "notes.txt" H1 H2))).
Defined.

Lemma X13_witness :
  Mirror.New site.cfg = Some (site.m, NewQueue)
  /\ Mirror.processURL site.m "a.html"
     = match resolved (Mirror.parser site.m) "a.html" with
       | Some u => inl u
       | None =>
           inr (if String.eqb "a.html" "" || gostrings.HasPrefix "a.html" "#"
                then Mirror.InvalidURL else Mirror.BadURL)
       end.
Proof.
  assert (H1 : Mirror.New site.cfg = Some (site.m, NewQueue))
    by (vm_compute; reflexivity).
  exact (conj H1 (X13_Mirror_processURL_agrees_with_parser site.cfg site.m
                    NewQueue "a.html" H1)).
Defined.

(** The lower-casing of the examples has the two facts X14 asks for. *)
Lemma lower_byte_idem c :
  gostrings.lower_byte (gostrings.lower_byte c) = gostrings.lower_byte c.
Proof. destruct c as [[] [] [] [] [] [] [] []]; reflexivity. Qed.

Lemma lower_byte_dot_slash c :
  Ascii.eqb "." (gostrings.lower_byte c) = Ascii.eqb "." c
  /\ Ascii.eqb "/" (gostrings.lower_byte c) = Ascii.eqb "/" c.
Proof. destruct c as [[] [] [] [] [] [] [] []]; split; reflexivity. Qed.

Lemma lower_byte_above c :
  gostrings.below_RuneSelf c = false -> gostrings.lower_byte c = c.
Proof. destruct c as [[] [] [] [] [] [] [] []]; intros [=]; reflexivity. Qed.

Lemma mapLower_bytewise fuel : forall s,
  (String.length s <= fuel)%nat ->
  gostrings.mapLower (L := gostrings.bytewise) fuel s = gostrings.lowerASCII s.
Proof.
  induction fuel as [|fuel IH]; intros [|c r] Hl; cbn [String.length] in Hl;
    try lia; try reflexivity.
  cbn [gostrings.mapLower gostrings.lowerASCII].
  destruct (gostrings.below_RuneSelf c) eqn:Ec.
  - f_equal. apply IH. lia.
  - simpl. rewrite (lower_byte_above c Ec). f_equal. apply IH. lia.
Qed.

Lemma ToLower_bytewise s :
  gostrings.ToLower (L := gostrings.bytewise) s = gostrings.lowerASCII s.
Proof.
  unfold gostrings.ToLower. destruct (gostrings.isASCII s); [reflexivity|].
  now apply mapLower_bytewise.
Qed.

Lemma ToLower_bytewise_lower s :
  gostrings.lowerASCII (gostrings.ToLower (L := gostrings.bytewise) s)
  = gostrings.ToLower (L := gostrings.bytewise) s.
Proof.
  rewrite !ToLower_bytewise.
  induction s as [|c s IH]; [reflexivity|].
  cbn [gostrings.lowerASCII]. now rewrite lower_byte_idem, IH.
Qed.

Lemma ToLower_bytewise_clean s :
  neturl.contains "." s = false -> neturl.contains "/" s = false ->
  neturl.contains "." (gostrings.ToLower (L := gostrings.bytewise) s) = false
  /\ neturl.contains "/" (gostrings.ToLower (L := gostrings.bytewise) s)
     = false.
Proof.
  rewrite ToLower_bytewise. unfold neturl.contains, neturl.one_of.
  induction s as [|c s IH]; [intros; split; reflexivity|].
  cbn [gostrings.lowerASCII list_ascii_of_string existsb].
  destruct (lower_byte_dot_slash c) as [-> ->].
  intros [Hc Hs]%orb_false_iff [Hc' Hs']%orb_false_iff.
  destruct (IH Hs Hs') as [-> ->]. now rewrite Hc, Hc'.
Qed.

Lemma X14_witness :
  (forall s, gostrings.lowerASCII (gostrings.ToLower s) = gostrings.ToLower s)
  /\ (forall s,
        neturl.contains "." s = false -> neturl.contains "/" s = false ->
        neturl.contains "." (gostrings.ToLower s) = false
        /\ neturl.contains "/" (gostrings.ToLower s) = false)
  /\ Parser.processURL
       (withRejectTypes
          (List.filter effectiveEntry
                       (Config.RejectTypes (Parser.config site.pJPG)))
          site.pJPG)
       "/img.jpg" NewQueue
     = Parser.processURL site.pJPG "/img.jpg" NewQueue.
Proof.
  exact (conj ToLower_bytewise_lower (conj ToLower_bytewise_clean
           (X14_only_effective_reject_entries_count
              ToLower_bytewise_lower ToLower_bytewise_clean
              site.pJPG "/img.jpg" NewQueue))).
Defined.

Lemma X15_witness :
  let raw := "http://example.test/a.html" in
  let u := neturl.mkURL "http" "" "example.test" "/a.html" false false "" "" in
  let r := Resource.mk "http://example.test/a.html" "out/example.test/a.html"
                       "" true in
  Parser.config site.p = Converter.config site.c
  /\ neturl.Host (Parser.baseURL site.p) = neturl.Host (Converter.baseURL site.c)
  /\ neturl.Parse raw = Some u
  /\ neturl.IsAbs u = true
  /\ Parser.processURL site.p raw NewQueue = Next site.q1
  /\ Resources site.q1 = (Resources NewQueue ++ [r])%list
  /\ Converter.convertPath site.c raw "elsewhere" = Resource.LocalPath r.
Proof.
  intros raw u r.
  assert (H1 : Parser.config site.p = Converter.config site.c) by reflexivity.
  assert (H2 : neturl.Host (Parser.baseURL site.p)
               = neturl.Host (Converter.baseURL site.c)) by reflexivity.
  assert (H3 : neturl.Parse raw = Some u) by (vm_compute; reflexivity).
  assert (H4 : neturl.IsAbs u = true) by reflexivity.
  assert (H5 : Parser.processURL site.p raw NewQueue = Next site.q1)
    by (vm_compute; reflexivity).
  assert (H6 : Resources site.q1 = (Resources NewQueue ++ [r])%list)
    by reflexivity.
  exact (conj H1 (conj H2 (conj H3 (conj H4 (conj H5 (conj H6
           (X15_converted_absolute_link_is_LocalPath site.p site.c raw u
              "elsewhere" NewQueue site.q1 r H1 H2 H3 H4 H5 H6))))))).
Defined.

Lemma X17_witness :
  let url := "http://example.test/style.css" in
  let fs' : FS := <["dl/style.css" := "body{}"]> notes in
  wget.downloadFile site.world url (flagsInto "dl") notes = (fs', None)
  /\ (forall path, path <> wget.fileName url (flagsInto "dl") ->
                   fs' !! path = notes !! path)
  /\ ((None : option wget.error) <> None ->
      (None : option wget.error) <> Some wget.CopyError -> fs' = notes)
  /\ ((None : option wget.error) = None ->
      exists resp, Get site.world url = Some resp
        /\ fs' = <[wget.fileName url (flagsInto "dl") := Body resp]> notes).
Proof.
  intros url fs'.
  assert (H1 : wget.downloadFile site.world url (flagsInto "dl") notes
               = (fs', None))
    by (vm_compute; reflexivity).
  exact (conj H1 (X17_downloadFile_touches_one_file site.world url
                    (flagsInto "dl") notes fs' None H1)).
Defined.

Lemma X19_witness :
  let url := "http://example.test/dir/" in
  wget.outputFile (flagsInto "") = ""
  /\ wget.outputDir (flagsInto "") = ""
  /\ wget.fileName url (flagsInto "") <> ""
  /\ (wget.fileName url (flagsInto "") = "/"
      \/ neturl.contains "/" (wget.fileName url (flagsInto "")) = false).
Proof.
  intros url.
  assert (H1 : wget.outputFile (flagsInto "") = "") by reflexivity.
  assert (H2 : wget.outputDir (flagsInto "") = "") by reflexivity.
  exact (conj H1 (conj H2
           (X19_default_name_has_no_directory url (flagsInto "") H1 H2))).
Defined.
